(** * The two-point AR measuring tool of [script.js]

    The program keeps a handful of module-level variables (the captured
    points, the measuring line, the active unit, the reticle, the hit-test
    source) and a few DOM elements, and mutates them from event handlers that
    never overlap.  It is embedded here as pure functions on an explicit
    [State] record, one function per handler of the source.

    JavaScript Numbers are IEEE 754 binary64 values, which is exactly what
    Rocq's primitive [float] is, so the arithmetic of [calculateDistance] is
    evaluated bit for bit. *)

From Stdlib Require Import ZArith List String Ascii Bool Lia Floats DecimalString.
Import ListNotations.

Set Warnings "-inexact-float".

(* ================================================================== *)
(** ** JavaScript Numbers and [Number.prototype.toFixed] *)
(* ================================================================== *)

Module JSNumber.

Local Open Scope Z_scope.

(** Decimal digits of a non-negative integer, without leading zeros
    (["0"] for zero). *)
Definition decimal (n : Z) : string :=
  NilZero.string_of_uint (N.to_uint (Z.to_N n)).

Fixpoint zeros (k : nat) : string :=
  match k with
  | O => EmptyString
  | S k' => String "0" (zeros k')
  end.

(** The exact value of a finite binary64 number with mantissa [m] and
    exponent [e] is [m * 2^e].  [scaledRound m e f] is the integer [n] for
    which [n / 10^f - m * 2^e] is closest to zero, the larger one on a tie:
    [floor (m * 2^e * 10^f + 1/2)], computed on integers. *)
Definition scaledRound (m : positive) (e : Z) (f : nat) : Z :=
  let p := 10 ^ Z.of_nat f in
  if 0 <=? e then Z.pos m * 2 ^ e * p
  else (2 * Z.pos m * p + 2 ^ (- e)) / 2 ^ (1 - e).

(** [10^21 <= m * 2^e] *)
Definition atLeast1e21 (m : positive) (e : Z) : bool :=
  if 0 <=? e then 10 ^ 21 <=? Z.pos m * 2 ^ e
  else 10 ^ 21 * 2 ^ (- e) <=? Z.pos m.

(** *** [Number::toString] for finite values of at least [10^21]

    Such a value is an integer [v].  The result is the shortest digit
    string [s] (of [k] digits) with [s * 10^(n-k)] converting back to the
    same Number, the closest to [v] among those, printed in exponent
    notation. *)

Definition sameNumber (c : Z) (m : positive) (e : Z) : bool :=
  SFeqb (binary_normalize prec emax c 0 false) (S754_finite false m e).

(** The candidate with [k] significant digits, if one converts back. *)
Definition candidate (v : Z) (m : positive) (e : Z) (n k : nat) : option Z :=
  let u := 10 ^ Z.of_nat (n - k) in
  let lo := (v / u) * u in
  let hi := lo + u in
  match sameNumber lo m e, sameNumber hi m e with
  | true, true => Some (if v - lo <=? hi - v then lo else hi)
  | true, false => Some lo
  | false, true => Some hi
  | false, false => None
  end.

Fixpoint shortest (v : Z) (m : positive) (e : Z) (n k fuel : nat) : Z :=
  match fuel with
  | O => v
  | S fuel' =>
      match candidate v m e n k with
      | Some c => c
      | None => shortest v m e n (S k) fuel'
      end
  end.

Fixpoint stripZeros (rev_digits : list ascii) : list ascii :=
  match rev_digits with
  | "0"%char :: r => stripZeros r
  | _ => rev_digits
  end.

Definition exponential (c : Z) : string :=
  let ds := decimal c in
  let ex := decimal (Z.of_nat (String.length ds) - 1) in
  match rev (stripZeros (rev (list_ascii_of_string ds))) with
  | [] => ds
  | [d] => String d ("e+" ++ ex)
  | d :: rest => String d ("." ++ string_of_list_ascii rest ++ "e+" ++ ex)
  end%string.

Definition toStringLarge (m : positive) (e : Z) : string :=
  let v := Z.pos m * 2 ^ e in
  let n := String.length (decimal v) in
  exponential (shortest v m e n 1 17).

(** *** [Number.prototype.toFixed(fractionDigits)]

    Steps of ECMA-262: a non-finite value prints as [Number::toString]
    does; a negative value prints ["-"] and continues with its absolute
    value; a value of at least [10^21] prints as [Number::toString] does;
    otherwise the digits of [n] are padded with zeros on the left to
    [f + 1] characters and the point is put before the last [f]. *)
Definition toFixed (x : float) (f : nat) : string :=
  match Prim2SF x with
  | S754_nan => "NaN"
  | S754_infinity false => "Infinity"
  | S754_infinity true => "-Infinity"
  | S754_zero _ =>
      if Nat.eqb f 0 then "0" else "0." ++ zeros f
  | S754_finite sg m e =>
      let s := if sg then "-" else "" in
      if atLeast1e21 m e then s ++ toStringLarge m e
      else
        let ds := decimal (scaledRound m e f) in
        if Nat.eqb f 0 then s ++ ds
        else
          let k := String.length ds in
          let ds := if Nat.leb k f then zeros (f + 1 - k) ++ ds else ds in
          let k := String.length ds in
          s ++ substring 0 (k - f) ds ++ "." ++ substring (k - f) f ds
  end%string.

(** The values [toFixed] prints in fixed notation: the finite ones of
    magnitude below [10^21]. *)
Definition fixedNotation (x : float) : bool :=
  match Prim2SF x with
  | S754_zero _ => true
  | S754_finite _ m e => negb (atLeast1e21 m e)
  | _ => false
  end.

End JSNumber.

(* ================================================================== *)
(** ** The parts of three.js the program calls *)
(* ================================================================== *)

Module Three.

Local Open Scope float_scope.

Record Vector3 := { x : float; y : float; z : float }.

(** [Vector3.clone]: a fresh vector with the same components. *)
Definition clone (v : Vector3) : Vector3 :=
  {| x := x v; y := y v; z := z v |}.

Definition distanceToSquared (a v : Vector3) : float :=
  let dx := x a - x v in
  let dy := y a - y v in
  let dz := z a - z v in
  dx * dx + dy * dy + dz * dz.

(** [Vector3.distanceTo]: [Math.sqrt(this.distanceToSquared(v))], with the
    correctly rounded square root of the hardware, as JavaScript engines
    compute it. *)
Definition distanceTo (a v : Vector3) : float :=
  sqrt (distanceToSquared a v).

(** A [Matrix4] holds 16 numbers in column-major order. *)
Definition Matrix4 := list float.

Definition identity : Matrix4 :=
  [1; 0; 0; 0;  0; 1; 0; 0;  0; 0; 1; 0;  0; 0; 0; 1].

(** [Matrix4.fromArray]: copies the first 16 entries of the array. *)
Definition fromArray (array : list float) : Matrix4 := firstn 16 array.

(** [Vector3.setFromMatrixPosition]: entries 12, 13 and 14.  A transform
    matrix of WebXR always has 16 entries, so the default is never read. *)
Definition setFromMatrixPosition (m : Matrix4) : Vector3 :=
  {| x := nth 12 m nan; y := nth 13 m nan; z := nth 14 m nan |}.

(** Objects of the scene graph.  A JavaScript object has an identity; it is
    modelled by a handle [id], drawn from a counter when the object is
    constructed.  Every object carries a [position]. *)
Inductive ObjectKind :=
| HemisphereLight
| Controller
| ReticleRing
| SphereMesh
| Line (a b : Vector3).

Record Object3D := { id : nat; kind : ObjectKind; position : Vector3 }.

Definition origin : Vector3 := {| x := 0; y := 0; z := 0 |}.

Definition Scene := list Object3D.

(** [Object3D.remove]: [indexOf] then [splice], on object identity. *)
Fixpoint remove (o : Object3D) (children : Scene) : Scene :=
  match children with
  | [] => []
  | c :: rest => if Nat.eqb (id c) (id o) then rest else c :: remove o rest
  end.

(** [Object3D.add]: the object leaves its previous parent (the only parent
    there is here is the scene itself) and is pushed on the children. *)
Definition add (o : Object3D) (children : Scene) : Scene :=
  remove o children ++ [o].

(** The handles of the children of a scene. *)
Definition ids (sc : Scene) : list nat := map id sc.

(** [remove] called on each object of a list in turn. *)
Definition removeAll (os : list Object3D) (sc : Scene) : Scene :=
  fold_left (fun s o => remove o s) os sc.

End Three.

(* ================================================================== *)
(** ** script.js *)
(* ================================================================== *)

Module App.

Import Three.
Local Open Scope string_scope.

(** The DOM elements the script reads and writes.  [actionBtn_onclick] is
    [true] once the [onclick] attribute holds [() => onSelect()]. *)
Record DOM := {
  actionBtn_innerText : string;
  actionBtn_disabled : bool;
  actionBtn_opacity : string;
  actionBtn_onclick : bool;
  instructionText : string;
  p1Label : string;
  p2Label : string;
  distLabel : string;
  introScreen_display : string;
  uiDiv_display : string
}.

(** An entry of [points]: [{ mesh: mesh, vec: mesh.position.clone() }]. *)
Record Point := { mesh : Object3D; vec : Vector3 }.

Inductive XRHitTestSource := HitTestSource.

(** The module-level variables, the scene graph and the page. *)
Record State := {
  scene : Scene;
  nextId : nat;
  reticle_visible : bool;
  reticle_matrix : Matrix4;
  hitTestSource : option XRHitTestSource;
  hitTestSourceRequested : bool;
  points : list Point;
  measurementLine : option Object3D;
  measureUnit : string;
  dom : DOM
}.

(** [points.length] *)
Definition len (st : State) : nat := List.length (points st).

Definition with_dom (st : State) (d : DOM) : State :=
  {| scene := scene st; nextId := nextId st;
     reticle_visible := reticle_visible st;
     reticle_matrix := reticle_matrix st;
     hitTestSource := hitTestSource st;
     hitTestSourceRequested := hitTestSourceRequested st;
     points := points st; measurementLine := measurementLine st;
     measureUnit := measureUnit st; dom := d |}.

Definition set_distLabel (v : string) (d : DOM) : DOM :=
  {| actionBtn_innerText := actionBtn_innerText d;
     actionBtn_disabled := actionBtn_disabled d;
     actionBtn_opacity := actionBtn_opacity d;
     actionBtn_onclick := actionBtn_onclick d;
     instructionText := instructionText d;
     p1Label := p1Label d; p2Label := p2Label d; distLabel := v;
     introScreen_display := introScreen_display d;
     uiDiv_display := uiDiv_display d |}.

Definition set_instructionText (v : string) (d : DOM) : DOM :=
  {| actionBtn_innerText := actionBtn_innerText d;
     actionBtn_disabled := actionBtn_disabled d;
     actionBtn_opacity := actionBtn_opacity d;
     actionBtn_onclick := actionBtn_onclick d;
     instructionText := v;
     p1Label := p1Label d; p2Label := p2Label d; distLabel := distLabel d;
     introScreen_display := introScreen_display d;
     uiDiv_display := uiDiv_display d |}.

Definition set_displays (intro ui : string) (d : DOM) : DOM :=
  {| actionBtn_innerText := actionBtn_innerText d;
     actionBtn_disabled := actionBtn_disabled d;
     actionBtn_opacity := actionBtn_opacity d;
     actionBtn_onclick := actionBtn_onclick d;
     instructionText := instructionText d;
     p1Label := p1Label d; p2Label := p2Label d; distLabel := distLabel d;
     introScreen_display := intro;
     uiDiv_display := ui |}.

(** [init]: the scene gets the light, the controller and the reticle; the
    reticle starts hidden.  The page itself (index.html) is not part of the
    script, so its initial content is an argument. *)
Definition init (page : DOM) : State :=
  {| scene := [ {| id := 0; kind := HemisphereLight;
                   position := {| x := 0%float; y := 1%float; z := 0%float |} |};
                {| id := 1; kind := Controller; position := origin |};
                {| id := 2; kind := ReticleRing; position := origin |} ];
     nextId := 3;
     reticle_visible := false;
     reticle_matrix := identity;
     hitTestSource := None;
     hitTestSourceRequested := false;
     points := [];
     measurementLine := None;
     measureUnit := "m";
     dom := page |}.

Definition formatCoord (v : Vector3) : string :=
  "(" ++ JSNumber.toFixed (x v) 2 ++ ", " ++ JSNumber.toFixed (y v) 2
      ++ ", " ++ JSNumber.toFixed (z v) 2 ++ ")".

(** The [switch] of [calculateDistance]; [displayValue] starts at [0] and
    there is no [default] case. *)
Definition displayValue (unit : string) (distanceMeters : float) : float :=
  if String.eqb unit "m" then distanceMeters
  else if String.eqb unit "cm" then (distanceMeters * 100)%float
  else if String.eqb unit "in" then (distanceMeters * 39.3701)%float
  else if String.eqb unit "ft" then (distanceMeters * 3.28084)%float
  else 0%float.

(** The second case is [points.length < 2]. *)
Definition calculateDistance (st : State) : State :=
  match points st with
  | p0 :: p1 :: _ =>
      let distanceMeters := distanceTo (vec p0) (vec p1) in
      with_dom st
        (set_distLabel
           (JSNumber.toFixed (displayValue (measureUnit st) distanceMeters) 2)
           (dom st))
  | _ => with_dom st (set_distLabel "0.00" (dom st))
  end.

(** The second case is [points.length < 2]. *)
Definition drawLine (st : State) : State :=
  match points st with
  | p0 :: p1 :: _ =>
      let line := {| id := nextId st; kind := Line (vec p0) (vec p1);
                     position := origin |} in
      {| scene := add line (scene st); nextId := S (nextId st);
         reticle_visible := reticle_visible st;
         reticle_matrix := reticle_matrix st;
         hitTestSource := hitTestSource st;
         hitTestSourceRequested := hitTestSourceRequested st;
         points := points st; measurementLine := Some line;
         measureUnit := measureUnit st; dom := dom st |}
  | _ => st
  end.

(** The cases are [points.length === 1], [points.length === 2] and
    neither. *)
Definition updateUIState (st : State) : State :=
  match points st with
  | [p0] =>
      with_dom st
        {| actionBtn_innerText := "Set Point 2";
           actionBtn_disabled := actionBtn_disabled (dom st);
           actionBtn_opacity := actionBtn_opacity (dom st);
           actionBtn_onclick := true;
           instructionText := "Move camera to target. Tap 'Set Point 2'.";
           p1Label := formatCoord (vec p0);
           p2Label := p2Label (dom st);
           distLabel := distLabel (dom st);
           introScreen_display := introScreen_display (dom st);
           uiDiv_display := uiDiv_display (dom st) |}
  | [_; p1] =>
      calculateDistance (drawLine (with_dom st
        {| actionBtn_innerText := "Complete";
           actionBtn_disabled := true;
           actionBtn_opacity := "0.5";
           actionBtn_onclick := actionBtn_onclick (dom st);
           instructionText := "Measurement Complete.";
           p1Label := p1Label (dom st);
           p2Label := formatCoord (vec p1);
           distLabel := distLabel (dom st);
           introScreen_display := introScreen_display (dom st);
           uiDiv_display := uiDiv_display (dom st) |}))
  | _ => st
  end.

Definition onSelect (st : State) : State :=
  if reticle_visible st then
    if Nat.leb 2 (List.length (points st)) then st
    else
      let mesh :=
        {| id := nextId st; kind := SphereMesh;
           position := setFromMatrixPosition (reticle_matrix st) |} in
      updateUIState
        {| scene := add mesh (scene st); nextId := S (nextId st);
           reticle_visible := reticle_visible st;
           reticle_matrix := reticle_matrix st;
           hitTestSource := hitTestSource st;
           hitTestSourceRequested := hitTestSourceRequested st;
           points := (points st ++ [ {| mesh := mesh; vec := clone (position mesh) |} ])%list;
           measurementLine := measurementLine st;
           measureUnit := measureUnit st; dom := dom st |}
  else st.

Definition resetMeasurement (st : State) : State :=
  let scene1 := fold_left (fun sc p => remove (mesh p) sc) (points st) (scene st) in
  let scene2 := match measurementLine st with
                | Some l => remove l scene1
                | None => scene1
                end in
  {| scene := scene2; nextId := nextId st;
     reticle_visible := reticle_visible st;
     reticle_matrix := reticle_matrix st;
     hitTestSource := hitTestSource st;
     hitTestSourceRequested := hitTestSourceRequested st;
     points := []; measurementLine := None;
     measureUnit := measureUnit st;
     dom := {| actionBtn_innerText := "Set Point 1";
               actionBtn_disabled := false;
               actionBtn_opacity := "1";
               actionBtn_onclick := actionBtn_onclick (dom st);
               instructionText := "Aim at a surface and tap Set Point 1.";
               p1Label := "---";
               p2Label := "---";
               distLabel := "0.00";
               introScreen_display := introScreen_display (dom st);
               uiDiv_display := uiDiv_display (dom st) |} |}.

(** The listener of [unitSelect]'s ['change'] event; [value] is
    [e.target.value]. *)
Definition onUnitChange (value : string) (st : State) : State :=
  calculateDistance
    {| scene := scene st; nextId := nextId st;
       reticle_visible := reticle_visible st;
       reticle_matrix := reticle_matrix st;
       hitTestSource := hitTestSource st;
       hitTestSourceRequested := hitTestSourceRequested st;
       points := points st; measurementLine := measurementLine st;
       measureUnit := value; dom := dom st |}.

(** The listener of [startBtn]'s ['click'] event. *)
Definition onStartClick (st : State) : State :=
  with_dom st (set_displays "none" "block" (dom st)).

(** A click on [actionBtn].  A disabled button dispatches no click.  The
    listener added with [addEventListener] calls [onSelect]; once
    [updateUIState] has set the [onclick] attribute, that handler is a
    second listener of the same event and calls [onSelect] again.  Listeners
    added while an event is dispatched do not run for that event, so whether
    the second call happens is decided before the first. *)
Definition onActionClick (st : State) : State :=
  if actionBtn_disabled (dom st) then st
  else
    let linked := actionBtn_onclick (dom st) in
    let st1 := onSelect st in
    if linked then onSelect st1 else st1.

(** What the render loop reads from an XR frame: for each entry of
    [frame.getHitTestResults(hitTestSource)], nearest first, what
    [getPose(referenceSpace)] gives for it: [null], or a pose, of which the
    loop reads the array [transform.matrix]. *)
Record XRFrame := { hitTestResults : list (option (list float)) }.

(** How a call ends: it returns, or it throws a [TypeError].  What was
    assigned before the throw stays assigned. *)
Inductive Completion :=
| Returns
| Throws.

Definition set_hitTest (src : option XRHitTestSource) (requested : bool)
    (st : State) : State :=
  {| scene := scene st; nextId := nextId st;
     reticle_visible := reticle_visible st;
     reticle_matrix := reticle_matrix st;
     hitTestSource := src;
     hitTestSourceRequested := requested;
     points := points st; measurementLine := measurementLine st;
     measureUnit := measureUnit st; dom := dom st |}.

Definition set_reticle (visible : bool) (m : Matrix4) (st : State) : State :=
  {| scene := scene st; nextId := nextId st;
     reticle_visible := visible;
     reticle_matrix := m;
     hitTestSource := hitTestSource st;
     hitTestSourceRequested := hitTestSourceRequested st;
     points := points st; measurementLine := measurementLine st;
     measureUnit := measureUnit st; dom := dom st |}.

(** The callback of the [requestHitTestSource] promise.  A promise callback
    runs after the handler that made the request has returned, so it is an
    event of its own. *)
Definition onHitTestSource (source : XRHitTestSource) (st : State) : State :=
  set_hitTest (Some source) (hitTestSourceRequested st) st.

(** The listener of the session's ['end'] event. *)
Definition onSessionEnd (st : State) : State :=
  with_dom (set_hitTest None false st) (set_displays "flex" "none" (dom st)).

(** [render(timestamp, frame)]; [frame] is undefined outside an XR session.
    With a hit and fewer than two points the loop first sets
    [reticle.visible = true] and then reads [hit.getPose(...).transform]:
    when [getPose] gave [null] this read throws, the reticle stays shown at
    the matrix it had, and the rest of the call is skipped.  The final
    [renderer.render] draws and changes nothing here. *)
Definition renderCall (frame : option XRFrame) (st : State)
  : State * Completion :=
  match frame with
  | None => (st, Returns)
  | Some fr =>
      let st1 :=
        if hitTestSourceRequested st then st
        else set_hitTest (hitTestSource st) true st in
      match hitTestSource st1 with
      | None => (st1, Returns)
      | Some _ =>
          match hitTestResults fr, Nat.ltb (List.length (points st1)) 2 with
          | hit :: _, true =>
              let shown := set_reticle true (reticle_matrix st1) st1 in
              match hit with
              | None => (shown, Throws)
              | Some matrix =>
                  let st2 := set_reticle true (fromArray matrix) shown in
                  if Nat.eqb (List.length (points st2)) 0
                  then (with_dom st2
                          (set_instructionText
                             "Surface detected. Tap 'Set Point 1'." (dom st2)),
                        Returns)
                  else (st2, Returns)
              end
          | _, _ =>
              let st2 := set_reticle false (reticle_matrix st1) st1 in
              if Nat.ltb (List.length (points st2)) 2
              then (with_dom st2
                      (set_instructionText
                         "Aim at floor/wall to detect surface." (dom st2)),
                    Returns)
              else (st2, Returns)
          end
      end
  end.

(** The state a call of [render] leaves, however it ends. *)
Definition render (frame : option XRFrame) (st : State) : State :=
  fst (renderCall frame st).

(** The events the page, the XR session and the animation loop deliver. *)
Inductive Event :=
| StartClick
| AnimationFrame (frame : option XRFrame)
| HitTestSourceReady (source : XRHitTestSource)
| Select
| ActionClick
| ResetClick
| UnitChange (value : string)
| SessionEnd.

(** The ['end'] listener is added to the session by the frame that sets
    [hitTestSourceRequested], and clears the flag when it runs: the running
    session has the listener exactly when the flag is set. *)
Definition step (st : State) (ev : Event) : State :=
  match ev with
  | StartClick => onStartClick st
  | AnimationFrame frame => render frame st
  | HitTestSourceReady source => onHitTestSource source st
  | Select => onSelect st
  | ActionClick => onActionClick st
  | ResetClick => resetMeasurement st
  | UnitChange value => onUnitChange value st
  | SessionEnd => if hitTestSourceRequested st then onSessionEnd st else st
  end.

Definition run (st : State) (evs : list Event) : State :=
  fold_left step evs st.

(** The states the program can be in: those some sequence of events leads
    to from [init], whatever the page. *)
Definition reachable (st : State) : Prop :=
  exists (page : DOM) (evs : list Event), st = run (init page) evs.

End App.

(* ================================================================== *)
(** ** The vocabulary of the specification *)
(* ================================================================== *)

Module Spec.

Import App.

(** The session phase is derived from the number of captured points and the
    visibility of the reticle, by the table of the specification. *)
Inductive SessionPhase :=
| AWAITING_SURFACE
| AIMING_P1
| POINT1_SET
| AIMING_P2
| COMPLETE.

Definition phaseOf (length : nat) (visible : bool) : SessionPhase :=
  match length, visible with
  | 0, false => AWAITING_SURFACE
  | 0, true => AIMING_P1
  | 1, false => POINT1_SET
  | 1, true => AIMING_P2
  | _, _ => COMPLETE
  end.

Definition phase (st : State) : SessionPhase :=
  phaseOf (List.length (points st)) (reticle_visible st).

(** The pose of the reticle as the specification sees it: none while the
    reticle is hidden. *)
Definition reticlePose (st : State) : option Three.Matrix4 :=
  if reticle_visible st then Some (reticle_matrix st) else None.

(** The conversion factor from meters of each unit of the specification,
    under the name the unit selector gives it. *)
Definition factor (unit : string) : option float :=
  if String.eqb unit "m" then Some 1%float
  else if String.eqb unit "cm" then Some 100%float
  else if String.eqb unit "in" then Some 39.3701%float
  else if String.eqb unit "ft" then Some 3.28084%float
  else None.

(** [convert] of the specification's UnitConverter. *)
Definition convert (meters k : float) : float := (meters * k)%float.

End Spec.

(* ================================================================== *)
(** ** Sample inputs *)
(* ================================================================== *)

Module Samples.

Import Three App.
Local Open Scope string_scope.

(** A page as [resetMeasurement] leaves it, with the intro screen shown. *)
Definition page : DOM :=
  {| actionBtn_innerText := "Set Point 1";
     actionBtn_disabled := false;
     actionBtn_opacity := "1";
     actionBtn_onclick := false;
     instructionText := "Aim at a surface and tap Set Point 1.";
     p1Label := "---";
     p2Label := "---";
     distLabel := "0.00";
     introScreen_display := "flex";
     uiDiv_display := "none" |}.

(** The transform of an unrotated pose at [(px, py, pz)]. *)
Definition poseAt (px py pz : float) : list float :=
  [1; 0; 0; 0;  0; 1; 0; 0;  0; 0; 1; 0;  px; py; pz; 1]%float.

Definition hitAt (px py pz : float) : Event :=
  AnimationFrame (Some {| hitTestResults := [Some (poseAt px py pz)] |}).

Definition noHit : XRFrame := {| hitTestResults := [] |}.

(** A session that has started tracking: the first frame requests the
    hit-test source, which then arrives. *)
Definition tracking : State :=
  run (init page)
    [StartClick; AnimationFrame (Some noHit); HitTestSourceReady HitTestSource].

(** One point captured at the origin. *)
Definition onePoint : State :=
  run tracking [hitAt 0 0 0; Select].

(** Two points captured, at [(0,0,0)] and at [(1,0,0)]. *)
Definition complete : State :=
  run onePoint [hitAt 1 0 0; Select].

(** The two entries of [points] in [complete]. *)
Definition pointA : Point :=
  {| mesh := {| id := 3; kind := SphereMesh;
                position := {| x := 0; y := 0; z := 0 |} |};
     vec := {| x := 0; y := 0; z := 0 |} |}.

Definition pointB : Point :=
  {| mesh := {| id := 4; kind := SphereMesh;
                position := {| x := 1; y := 0; z := 0 |} |};
     vec := {| x := 1; y := 0; z := 0 |} |}.

(** A whole measurement: start, track, capture by gesture, capture by
    button, and one gesture too many. *)
Definition session : list Event :=
  [StartClick; AnimationFrame (Some noHit); HitTestSourceReady HitTestSource;
   hitAt 0 0 0; Select; hitAt 1 0 0; ActionClick; Select].

(** The reticle found a surface, then the session ended. *)
Definition endedWhileAiming : State :=
  run tracking [hitAt 0 0 0; SessionEnd].

End Samples.

(* ================================================================== *)
(** ** Observations on states and Numbers *)
(* ================================================================== *)

Module Derived.

Import Three App.
Local Open Scope string_scope.

(** The sign of a binary64 value; NaN has none. *)
Definition sfSign (v : spec_float) : bool :=
  match v with
  | S754_zero s | S754_infinity s | S754_finite s _ _ => s
  | S754_nan => false
  end.

Definition sfIsNaN (v : spec_float) : bool :=
  match v with
  | S754_nan => true
  | _ => false
  end.

Definition sfIsFinite (v : spec_float) : bool :=
  match v with
  | S754_zero _ | S754_finite _ _ _ => true
  | _ => false
  end.

Definition signBit (v : float) : bool := sfSign (Prim2SF v).

(** [Number.isNaN] and [Number.isFinite]. *)
Definition isNaN (v : float) : bool := sfIsNaN (Prim2SF v).

Definition isFinite (v : float) : bool := sfIsFinite (Prim2SF v).

Definition finiteVector (v : Vector3) : bool :=
  isFinite (x v) && isFinite (y v) && isFinite (z v).

(** Strings made of the decimal digits ["0"] to ["9"] only. *)
Definition isDigit (c : ascii) : bool :=
  Nat.leb 48 (nat_of_ascii c) && Nat.leb (nat_of_ascii c) 57.

Fixpoint allDigits (s : string) : bool :=
  match s with
  | EmptyString => true
  | String c rest => isDigit c && allDigits rest
  end.

(** The position a capture takes from the reticle, and the entry [onSelect]
    pushes on [points] for it. *)
Definition reticlePosition (st : State) : Vector3 :=
  setFromMatrixPosition (reticle_matrix st).

Definition capturedPoint (st : State) : Point :=
  {| mesh := {| id := nextId st; kind := SphereMesh;
                position := reticlePosition st |};
     vec := reticlePosition st |}.

(** The state [onSelect] hands to [updateUIState] when it captures. *)
Definition withCapture (st : State) : State :=
  {| scene := add (mesh (capturedPoint st)) (scene st);
     nextId := S (nextId st);
     reticle_visible := reticle_visible st;
     reticle_matrix := reticle_matrix st;
     hitTestSource := hitTestSource st;
     hitTestSourceRequested := hitTestSourceRequested st;
     points := (points st ++ [capturedPoint st])%list;
     measurementLine := measurementLine st;
     measureUnit := measureUnit st; dom := dom st |}.

(** The part of the state that holds the measurement. *)
Definition measurementOf (st : State)
  : Scene * nat * list Point * option Object3D :=
  (scene st, nextId st, points st, measurementLine st).

(** The objects the measurement has put in the scene: the markers of the
    points, in capture order, then the line. *)
Definition lineList (l : option Object3D) : list Object3D :=
  match l with
  | Some o => [o]
  | None => []
  end.

Definition owned (st : State) : list Object3D :=
  (map mesh (points st) ++ lineList (measurementLine st))%list.

(** The line is there exactly with two points, and joins them. *)
Definition lineJoinsPoints (st : State) : Prop :=
  match measurementLine st with
  | None => len st < 2
  | Some l =>
      exists p0 p1 : Point,
        points st = [p0; p1] /\ kind l = Line (vec p0) (vec p1)
  end.

(** The scene is what [init] put there followed by the objects of the
    measurement, each made after [init] and before the next object to come. *)
Definition sceneInvariant (page : DOM) (st : State) : Prop :=
  scene st = (scene (init page) ++ owned st)%list /\
  nextId (init page) <= nextId st /\
  Forall (fun o => nextId (init page) <= id o < nextId st) (owned st) /\
  NoDup (ids (owned st)) /\
  Forall (fun p => kind (mesh p) = SphereMesh /\ position (mesh p) = vec p)
         (points st) /\
  lineJoinsPoints st.

(** A page whose measurement panel starts out as [resetMeasurement] would
    leave it. *)
Definition pristine (page : DOM) : Prop :=
  actionBtn_innerText page = "Set Point 1" /\
  actionBtn_disabled page = false /\
  actionBtn_opacity page = "1" /\
  p1Label page = "---" /\
  p2Label page = "---" /\
  distLabel page = "0.00".

(** What the panel should read for the points and the unit of a state. *)
Definition expectedP1 (st : State) : string :=
  match points st with
  | p0 :: _ => formatCoord (vec p0)
  | [] => "---"
  end.

Definition expectedP2 (st : State) : string :=
  match points st with
  | _ :: p1 :: _ => formatCoord (vec p1)
  | _ => "---"
  end.

Definition expectedDistance (st : State) : string :=
  match points st with
  | p0 :: p1 :: _ =>
      JSNumber.toFixed
        (displayValue (measureUnit st) (distanceTo (vec p0) (vec p1))) 2
  | _ => "0.00"
  end.

Definition expectedButtonText (st : State) : string :=
  match len st with
  | 0 => "Set Point 1"
  | 1 => "Set Point 2"
  | _ => "Complete"
  end.

Definition panelInSync (st : State) : Prop :=
  len st <= 2 /\
  p1Label (dom st) = expectedP1 st /\
  p2Label (dom st) = expectedP2 st /\
  distLabel (dom st) = expectedDistance st /\
  actionBtn_innerText (dom st) = expectedButtonText st /\
  actionBtn_disabled (dom st) = Nat.eqb (len st) 2 /\
  actionBtn_opacity (dom st) = (if Nat.eqb (len st) 2 then "0.5" else "1") /\
  (len st = 2 -> instructionText (dom st) = "Measurement Complete.").

(** The frame that carries the hit results [hits]. *)
Definition frameOf (hits : list (option (list float))) : Event :=
  AnimationFrame (Some {| hitTestResults := hits |}).

(** The line of [Samples.complete]. *)
Definition sampleLine : Object3D :=
  {| id := 5;
     kind := Line (vec Samples.pointA) (vec Samples.pointB);
     position := origin |}.

Definition isSourceReady (ev : Event) : bool :=
  match ev with
  | HitTestSourceReady _ => true
  | _ => false
  end.

End Derived.

(* ================================================================== *)
(** ** Binary64 arithmetic *)
(* ================================================================== *)

Section Binary.

Variables prec emax : Z.

(** The sign given to a rounding only decides the sign of its result. *)
Lemma SFabs_round_aux_sign (s1 s2 : bool) (m e : Z) (l : location) :
  SFabs (binary_round_aux prec emax s1 m e l)
  = SFabs (binary_round_aux prec emax s2 m e l).
Proof.
  unfold binary_round_aux.
  destruct (shr_fexp prec emax m e l) as [mrs' e'].
  destruct (shr_fexp prec emax _ e' loc_Exact) as [mrs'' e''].
  destruct (shr_m mrs''); try reflexivity.
  destruct (e'' <=? emax - prec)%Z; reflexivity.
Qed.

Lemma SFabs_round_sign (s1 s2 : bool) (m : positive) (e : Z) :
  SFabs (binary_round prec emax s1 m e) = SFabs (binary_round prec emax s2 m e).
Proof.
  unfold binary_round.
  destruct (shl_align m e _) as [mz ez].
  apply SFabs_round_aux_sign.
Qed.

Lemma SFabs_normalize_opp (m e : Z) (sz : bool) :
  SFabs (binary_normalize prec emax (- m) e sz)
  = SFabs (binary_normalize prec emax m e sz).
Proof.
  destruct m as [|p|p]; simpl; try reflexivity; apply SFabs_round_sign.
Qed.

(** [a - b] and [b - a] differ in sign only. *)
Lemma SFabs_sub_swap (a b : spec_float) :
  SFabs (SFsub prec emax a b) = SFabs (SFsub prec emax b a).
Proof.
  destruct a as [sa|sa| |sa ma ea], b as [sb|sb| |sb mb eb];
    try reflexivity;
    try (destruct sa, sb; reflexivity);
    try (destruct sa; reflexivity);
    try (destruct sb; reflexivity).
  cbv zeta. unfold SFsub.
  replace (IntDef.Z.min eb ea) with (IntDef.Z.min ea eb) by apply Z.min_comm.
  set (ez := IntDef.Z.min ea eb).
  set (X := cond_Zopp sa _). set (Y := cond_Zopp sb _).
  replace (Y - X)%Z with (- (X - Y))%Z by lia.
  symmetry. apply SFabs_normalize_opp.
Qed.

(** A square does not see the sign. *)
Lemma SFmul_square_abs (a b : spec_float) :
  SFabs a = SFabs b -> SFmul prec emax a a = SFmul prec emax b b.
Proof.
  destruct a as [sa|sa| |sa ma ea], b as [sb|sb| |sb mb eb];
    simpl; intros H; try discriminate; try reflexivity.
  - destruct sa, sb; reflexivity.
  - destruct sa, sb; reflexivity.
  - injection H as -> ->. destruct sa, sb; reflexivity.
Qed.

End Binary.

Lemma float_sub_square_swap (a b : float) :
  ((a - b) * (a - b) = (b - a) * (b - a))%float.
Proof.
  apply Prim2SF_inj. rewrite !mul_spec, !sub_spec.
  apply SFmul_square_abs, SFabs_sub_swap.
Qed.

(** [1] is the mantissa [2^52] at exponent [-52]: a product with it shifts
    the mantissa left by 52 bits, and rounding shifts it back unchanged. *)
Lemma digits2_pos_shift52 (m : positive) :
  digits2_pos (m * 4503599627370496) = (digits2_pos m + 52)%positive.
Proof.
  change 4503599627370496%positive with (Pos.iter xO 1 52)%positive.
  cbn [Pos.iter].
  rewrite !Pos.mul_xO_r, Pos.mul_1_r.
  cbn [digits2_pos]. lia.
Qed.

Lemma shr_shift52 (m : positive) :
  iter_pos shr_1 52
    {| shr_m := Z.pos (m * 4503599627370496); shr_r := false; shr_s := false |}
  = {| shr_m := Z.pos m; shr_r := false; shr_s := false |}.
Proof.
  change 4503599627370496%positive with (Pos.iter xO 1 52)%positive.
  cbn [Pos.iter].
  rewrite !Pos.mul_xO_r, Pos.mul_1_r.
  reflexivity.
Qed.

Lemma SF64mul_one (v : spec_float) :
  valid_binary v = true ->
  SF64mul v (S754_finite false 4503599627370496 (-52)) = v.
Proof.
  destruct v as [s|s| |s m e]; intros V;
    try (destruct s; reflexivity); try reflexivity.
  unfold SpecFloat.valid_binary, bounded, canonical_mantissa in V.
  apply andb_prop in V. destruct V as [C B].
  apply Z.eqb_eq in C.
  unfold SF64mul, SFmul, binary_round_aux.
  rewrite xorb_false_r.
  unfold shr_fexp at 1.
  unfold Zdigits2 at 1. rewrite digits2_pos_shift52.
  replace (Z.pos (digits2_pos m + 52) + (e + -52))%Z
    with (Z.pos (digits2_pos m) + e)%Z by lia.
  rewrite C.
  replace (e - (e + -52))%Z with 52%Z by lia.
  unfold shr_record_of_loc, shr. rewrite shr_shift52.
  replace (e + -52 + 52)%Z with e by lia.
  cbn [shr_m loc_of_shr_record round_nearest_even].
  unfold shr_fexp, Zdigits2. rewrite C, Z.sub_diag.
  cbn [shr shr_record_of_loc shr_m].
  rewrite B. reflexivity.
Qed.

Lemma float_mul_1_r (d : float) : (d * 1 = d)%float.
Proof.
  apply Prim2SF_inj. rewrite mul_spec.
  change (Prim2SF 1) with (S754_finite false 4503599627370496 (-52)).
  apply SF64mul_one, Prim2SF_valid.
Qed.

Lemma distanceToSquared_sym (a b : Three.Vector3) :
  Three.distanceToSquared a b = Three.distanceToSquared b a.
Proof.
  unfold Three.distanceToSquared.
  rewrite (float_sub_square_swap (Three.x a)),
          (float_sub_square_swap (Three.y a)),
          (float_sub_square_swap (Three.z a)).
  reflexivity.
Qed.

(* ================================================================== *)
(** ** [toFixed] on sample values *)
(* ================================================================== *)

Example toFixed_1 : JSNumber.toFixed 1%float 2 = "1.00"%string.
Proof. vm_compute. reflexivity. Qed.
Example toFixed_2 : JSNumber.toFixed 0.005%float 2 = "0.01"%string.
Proof. vm_compute. reflexivity. Qed.
Example toFixed_3 : JSNumber.toFixed 1.005%float 2 = "1.00"%string.
Proof. vm_compute. reflexivity. Qed.
Example toFixed_4 : JSNumber.toFixed (-0.001)%float 2 = "-0.00"%string.
Proof. vm_compute. reflexivity. Qed.
Example toFixed_5 : JSNumber.toFixed 1e21%float 2 = "1e+21"%string.
Proof. vm_compute. reflexivity. Qed.
Example toFixed_6 : JSNumber.toFixed 1e23%float 2 = "1e+23"%string.
Proof. vm_compute. reflexivity. Qed.
Example toFixed_7 : JSNumber.toFixed 1180591620717411303424%float 2 = "1.1805916207174113e+21"%string.
Proof. vm_compute. reflexivity. Qed.
Example toFixed_8 : JSNumber.toFixed 123.456%float 2 = "123.46"%string.
Proof. vm_compute. reflexivity. Qed.
Example toFixed_9 : JSNumber.toFixed 2.5%float 0 = "3"%string.
Proof. vm_compute. reflexivity. Qed.
Example toFixed_10 : JSNumber.toFixed 1.7976931348623157e308%float 2 = "1.7976931348623157e+308"%string.
Proof. vm_compute. reflexivity. Qed.
Example toFixed_11 : JSNumber.toFixed 999999999999999900000%float 2 = "999999999999999868928.00"%string.
Proof. vm_compute. reflexivity. Qed.
Example toFixed_12 : JSNumber.toFixed 0.000001%float 2 = "0.00"%string.
Proof. vm_compute. reflexivity. Qed.
Example toFixed_13 : JSNumber.toFixed 5e-324%float 2 = "0.00"%string.
Proof. vm_compute. reflexivity. Qed.
Example toFixed_14 : JSNumber.toFixed 8.345%float 2 = "8.35"%string.
Proof. vm_compute. reflexivity. Qed.
Example toFixed_15 : JSNumber.toFixed 10.235%float 2 = "10.23"%string.
Proof. vm_compute. reflexivity. Qed.

(* ================================================================== *)
(** ** The scene graph *)
(* ================================================================== *)

Section SceneGraph.

Import Three.

Lemma remove_ids_incl (o : Object3D) (sc : Scene) (i : nat) :
  In i (ids (remove o sc)) -> In i (ids sc).
Proof.
  induction sc as [|c rest IH]; simpl; [tauto|].
  destruct (Nat.eqb (id c) (id o)); simpl; tauto.
Qed.

Lemma remove_NoDup (o : Object3D) (sc : Scene) :
  NoDup (ids sc) -> NoDup (ids (remove o sc)).
Proof.
  induction sc as [|c rest IH]; simpl; intros H; [constructor|].
  inversion H as [|? ? Hc Hrest]; subst.
  destruct (Nat.eqb (id c) (id o)); [assumption|].
  simpl. constructor; [|auto].
  intros Hin. apply Hc. eapply remove_ids_incl; eassumption.
Qed.

(** In a scene without duplicates, a removed object is gone. *)
Lemma remove_gone (o : Object3D) (sc : Scene) :
  NoDup (ids sc) -> ~ In (id o) (ids (remove o sc)).
Proof.
  induction sc as [|c rest IH]; simpl; intros H; [tauto|].
  inversion H as [|? ? Hc Hrest]; subst.
  destruct (Nat.eqb (id c) (id o)) eqn:E.
  - apply Nat.eqb_eq in E. rewrite <- E. assumption.
  - apply Nat.eqb_neq in E. simpl. intros [Heq|Hin]; [contradiction|].
    exact (IH Hrest Hin).
Qed.

Lemma add_NoDup (o : Object3D) (sc : Scene) :
  NoDup (ids sc) -> NoDup (ids (add o sc)).
Proof.
  intros H. unfold add, ids. rewrite map_app. simpl.
  apply NoDup_app.
  - apply remove_NoDup, H.
  - constructor; [simpl; tauto | constructor].
  - intros a Ha [<-|[]]. exact (remove_gone o sc H Ha).
Qed.

Lemma removeAll_ids_incl (os : list Object3D) (sc : Scene) (i : nat) :
  In i (ids (removeAll os sc)) -> In i (ids sc).
Proof.
  revert sc. induction os as [|o os IH]; simpl; intros sc H; [assumption|].
  eapply remove_ids_incl, IH, H.
Qed.

Lemma removeAll_NoDup (os : list Object3D) (sc : Scene) :
  NoDup (ids sc) -> NoDup (ids (removeAll os sc)).
Proof.
  revert sc. induction os as [|o os IH]; simpl; intros sc H; [assumption|].
  apply IH, remove_NoDup, H.
Qed.

Lemma removeAll_gone (os : list Object3D) (sc : Scene) (o : Object3D) :
  NoDup (ids sc) -> In o os -> ~ In (id o) (ids (removeAll os sc)).
Proof.
  revert sc. induction os as [|o' os IH]; simpl; intros sc H Hin; [tauto|].
  destruct Hin as [->|Hin].
  - intros Hc. apply removeAll_ids_incl in Hc.
    exact (remove_gone o sc H Hc).
  - apply IH; [apply remove_NoDup, H | assumption].
Qed.

End SceneGraph.

(* ================================================================== *)
(** ** What each handler leaves alone *)
(* ================================================================== *)

Section Frames.

Import Three App.

Lemma fold_remove_map (ps : list Point) (sc : Scene) :
  fold_left (fun s p => remove (mesh p) s) ps sc = removeAll (map mesh ps) sc.
Proof.
  revert sc. induction ps as [|p ps IH]; simpl; intros sc; [reflexivity|].
  apply IH.
Qed.

Lemma calculateDistance_dom (st : State) :
  exists text, calculateDistance st = with_dom st (set_distLabel text (dom st)).
Proof.
  unfold calculateDistance.
  destruct (points st) as [|p0 [|p1 r]]; eexists; reflexivity.
Qed.

Lemma points_calculateDistance (st : State) :
  points (calculateDistance st) = points st.
Proof. destruct (calculateDistance_dom st) as [t ->]. reflexivity. Qed.

Lemma scene_calculateDistance (st : State) :
  scene (calculateDistance st) = scene st.
Proof. destruct (calculateDistance_dom st) as [t ->]. reflexivity. Qed.

Lemma points_drawLine (st : State) : points (drawLine st) = points st.
Proof.
  unfold drawLine. destruct (points st) as [|p0 [|p1 r]] eqn:E; auto.
Qed.

Lemma NoDup_drawLine (st : State) :
  NoDup (ids (scene st)) -> NoDup (ids (scene (drawLine st))).
Proof.
  unfold drawLine. destruct (points st) as [|p0 [|p1 r]]; auto.
  simpl. apply add_NoDup.
Qed.

Lemma points_updateUIState (st : State) :
  points (updateUIState st) = points st.
Proof.
  unfold updateUIState.
  destruct (points st) as [|p0 [|p1 [|p2 r]]] eqn:E; auto.
  rewrite points_calculateDistance, points_drawLine. exact E.
Qed.

Lemma NoDup_updateUIState (st : State) :
  NoDup (ids (scene st)) -> NoDup (ids (scene (updateUIState st))).
Proof.
  unfold updateUIState.
  destruct (points st) as [|p0 [|p1 [|p2 r]]]; auto.
  intros H. rewrite scene_calculateDistance. apply NoDup_drawLine, H.
Qed.

(** [onSelect] does nothing without a visible reticle, or with two points. *)
Lemma onSelect_ignored (st : State) :
  reticle_visible st = false \/ 2 <= len st -> onSelect st = st.
Proof.
  unfold onSelect, len. intros [H|H].
  - rewrite H. reflexivity.
  - apply Nat.leb_le in H. rewrite H. destruct (reticle_visible st); reflexivity.
Qed.

Lemma len_onSelect (st : State) :
  len (onSelect st) =
  if reticle_visible st && Nat.ltb (len st) 2 then S (len st) else len st.
Proof.
  unfold onSelect, len.
  destruct (reticle_visible st); [|reflexivity].
  rewrite Nat.ltb_antisym.
  destruct (Nat.leb 2 (List.length (points st))); [reflexivity|].
  simpl. rewrite points_updateUIState. simpl.
  rewrite length_app. simpl. lia.
Qed.

Lemma NoDup_onSelect (st : State) :
  NoDup (ids (scene st)) -> NoDup (ids (scene (onSelect st))).
Proof.
  unfold onSelect. intros H.
  destruct (reticle_visible st); [|assumption].
  destruct (Nat.leb 2 (List.length (points st))); [assumption|].
  apply NoDup_updateUIState. simpl. apply add_NoDup, H.
Qed.

Lemma len_onSelect_bounds (st : State) :
  len st <= len (onSelect st) /\ (len st <= 2 -> len (onSelect st) <= 2).
Proof.
  rewrite len_onSelect.
  destruct (reticle_visible st); simpl; [|lia].
  destruct (Nat.ltb (len st) 2) eqn:B; [apply Nat.ltb_lt in B|]; lia.
Qed.

Lemma len_onActionClick (st : State) :
  len st <= len (onActionClick st) /\
  (len st <= 2 -> len (onActionClick st) <= 2).
Proof.
  unfold onActionClick.
  destruct (actionBtn_disabled (dom st)); [lia|].
  pose proof (len_onSelect_bounds st) as [A1 A2].
  destruct (actionBtn_onclick (dom st)); [|tauto].
  pose proof (len_onSelect_bounds (onSelect st)) as [B1 B2].
  split; [lia | auto].
Qed.

Lemma points_render (frame : option XRFrame) (st : State) :
  points (render frame st) = points st.
Proof.
  unfold render, renderCall. destruct frame as [fr|]; [|reflexivity].
  destruct (hitTestSourceRequested st); simpl;
    destruct (hitTestSource st); simpl; try reflexivity;
    destruct (hitTestResults fr) as [|[m|] rest]; simpl;
    destruct (Nat.ltb (List.length (points st)) 2); simpl; try reflexivity;
    destruct (Nat.eqb (List.length (points st)) 0); reflexivity.
Qed.

Lemma scene_render (frame : option XRFrame) (st : State) :
  scene (render frame st) = scene st.
Proof.
  unfold render, renderCall. destruct frame as [fr|]; [|reflexivity].
  destruct (hitTestSourceRequested st); simpl;
    destruct (hitTestSource st); simpl; try reflexivity;
    destruct (hitTestResults fr) as [|[m|] rest]; simpl;
    destruct (Nat.ltb (List.length (points st)) 2); simpl; try reflexivity;
    destruct (Nat.eqb (List.length (points st)) 0); reflexivity.
Qed.

Lemma points_onUnitChange (value : string) (st : State) :
  points (onUnitChange value st) = points st.
Proof. unfold onUnitChange. rewrite points_calculateDistance. reflexivity. Qed.

Lemma scene_onUnitChange (value : string) (st : State) :
  scene (onUnitChange value st) = scene st.
Proof. unfold onUnitChange. rewrite scene_calculateDistance. reflexivity. Qed.

(** No event but the reset button takes a point away, and no event takes
    the array beyond two points. *)
Lemma len_step (st : State) (ev : Event) :
  (ev <> ResetClick -> len st <= len (step st ev)) /\
  (len st <= 2 -> len (step st ev) <= 2).
Proof.
  destruct ev; simpl.
  - unfold len; simpl; lia.
  - unfold len. rewrite points_render. lia.
  - unfold len; simpl; lia.
  - pose proof (len_onSelect_bounds st). tauto.
  - pose proof (len_onActionClick st). tauto.
  - split; [congruence | unfold len; simpl; lia].
  - unfold len. rewrite points_onUnitChange. lia.
  - destruct (hitTestSourceRequested st); unfold len; simpl; lia.
Qed.

Lemma NoDup_resetMeasurement (st : State) :
  NoDup (ids (scene st)) -> NoDup (ids (scene (resetMeasurement st))).
Proof.
  intros H. unfold resetMeasurement. simpl.
  rewrite fold_remove_map.
  destruct (measurementLine st); [apply remove_NoDup|];
    apply removeAll_NoDup, H.
Qed.

Lemma NoDup_step (st : State) (ev : Event) :
  NoDup (ids (scene st)) -> NoDup (ids (scene (step st ev))).
Proof.
  intros H. destruct ev; simpl.
  - assumption.
  - rewrite scene_render. assumption.
  - assumption.
  - apply NoDup_onSelect, H.
  - unfold onActionClick.
    destruct (actionBtn_disabled (dom st)); [assumption|].
    destruct (actionBtn_onclick (dom st)); auto using NoDup_onSelect.
  - apply NoDup_resetMeasurement, H.
  - rewrite scene_onUnitChange. assumption.
  - destruct (hitTestSourceRequested st); assumption.
Qed.

Lemma NoDup_run (st : State) (evs : list Event) :
  NoDup (ids (scene st)) -> NoDup (ids (scene (run st evs))).
Proof.
  revert st. induction evs as [|ev evs IH]; simpl; intros st H; [assumption|].
  apply IH, NoDup_step, H.
Qed.

Lemma NoDup_init (page : DOM) : NoDup (ids (scene (init page))).
Proof.
  simpl. repeat constructor; simpl; intuition discriminate.
Qed.

End Frames.

(* ================================================================== *)
(** ** Session end *)
(* ================================================================== *)

Section SessionEndProperties.

Import Three App.




End SessionEndProperties.

(* ================================================================== *)
(** ** The points array *)
(* ================================================================== *)

Section PointSetProperties.

Import Three App.

Lemma onActionClick_ignored (st : State) :
  reticle_visible st = false \/ 2 <= len st -> onActionClick st = st.
Proof.
  intros H. unfold onActionClick.
  destruct (actionBtn_disabled (dom st)); [reflexivity|].
  rewrite (onSelect_ignored st H).
  destruct (actionBtn_onclick (dom st)); [apply onSelect_ignored, H | reflexivity].
Qed.

Lemma len_prefixes (evs : list Event) :
  Forall (fun ev => ev <> ResetClick) evs ->
  forall (st : State) (k : nat),
    len st <= 2 ->
    len (run st (firstn k evs)) <= len (run st (firstn (S k) evs)) /\
    len (run st (firstn (S k) evs)) <= 2.
Proof.
  induction 1 as [|ev evs Hev Hevs IH]; intros st k Hst.
  - rewrite !firstn_nil. simpl. lia.
  - destruct k as [|k].
    + cbn [firstn run fold_left].
      pose proof (len_step st ev). tauto.
    + change (firstn (S (S k)) (ev :: evs)) with (ev :: firstn (S k) evs).
      change (firstn (S k) (ev :: evs)) with (ev :: firstn k evs).
      simpl run. apply IH. apply len_step, Hst.
Qed.

(** C2: along every sequence of events without a reset (frames, select
    gestures and button clicks among them), started from the initial state,
    the number of captured points never decreases from one prefix to the
    next, never exceeds two, and once it is two a further select gesture or
    button click changes nothing. *)
Theorem points_bounded_monotone (page : DOM) (evs : list Event) :
  Forall (fun ev => ev <> ResetClick) evs ->
  forall k : nat,
    len (run (init page) (firstn k evs))
      <= len (run (init page) (firstn (S k) evs)) /\
    len (run (init page) (firstn (S k) evs)) <= 2 /\
    (len (run (init page) (firstn k evs)) = 2 ->
     step (run (init page) (firstn k evs)) Select
       = run (init page) (firstn k evs) /\
     step (run (init page) (firstn k evs)) ActionClick
       = run (init page) (firstn k evs)).
Proof.
  intros Hevs k.
  destruct (len_prefixes evs Hevs (init page) k) as [Hmono Hle];
    [unfold len; simpl; lia|].
  split; [assumption | split; [assumption|]].
  intros H2. split; simpl.
  - apply onSelect_ignored. right. lia.
  - apply onActionClick_ignored. right. lia.
Qed.

Lemma points_bounded_monotone_witness :
  Forall (fun ev => ev <> ResetClick) Samples.session /\
  len (run (init Samples.page) (firstn 6 Samples.session))
    <= len (run (init Samples.page) (firstn 7 Samples.session)) /\
  len (run (init Samples.page) (firstn 7 Samples.session)) <= 2.
Proof.
  assert (H : Forall (fun ev => ev <> ResetClick) Samples.session)
    by (repeat constructor; discriminate).
  split; [exact H|].
  destruct (points_bounded_monotone Samples.page Samples.session H 6)
    as [Hmono [Hle _]].
  split; assumption.
Defined.

(** C4: a select gesture or a click on the action button while the reticle
    is hidden, or while two points are held, returns the state it was given;
    so does any sequence of them, and with it the points and the displayed
    distance stay as they were. *)
Theorem capture_ignored (st : State) (evs : list Event) :
  reticle_visible st = false \/ len st = 2 ->
  Forall (fun ev => ev = Select \/ ev = ActionClick) evs ->
  onSelect st = st /\
  onActionClick st = st /\
  run st evs = st /\
  points (run st evs) = points st /\
  distLabel (dom (run st evs)) = distLabel (dom st).
Proof.
  intros H Hevs.
  assert (H' : reticle_visible st = false \/ 2 <= len st) 
    by (destruct H as [H|H]; [left; exact H | right; lia]).
  assert (R : run st evs = st).
  { induction Hevs as [|ev evs [->| ->] _ IH]; simpl.
    - reflexivity.
    - rewrite onSelect_ignored by assumption. exact IH.
    - rewrite onActionClick_ignored by assumption. exact IH. }
  rewrite R. auto using onSelect_ignored, onActionClick_ignored.
Qed.

Lemma capture_ignored_witness :
  (reticle_visible Samples.complete = false \/ len Samples.complete = 2) /\
  run Samples.complete [Select; ActionClick; Select] = Samples.complete.
Proof.
  split.
  - right. reflexivity.
  - assert (H1 : reticle_visible Samples.complete = false
                 \/ len Samples.complete = 2) by (right; reflexivity).
    assert (H2 : Forall (fun ev => ev = Select \/ ev = ActionClick)
                   [Select; ActionClick; Select])
      by (repeat constructor; auto).
    destruct (capture_ignored Samples.complete [Select; ActionClick; Select]
                H1 H2) as (_ & _ & R & _).
    exact R.
Defined.

End PointSetProperties.

(* ================================================================== *)
(** ** The reticle *)
(* ================================================================== *)

Section ReticleProperties.

Import Three App.

(** The reticle after a frame processed with a hit-test source. *)
Lemma render_reticle (st : State) (fr : XRFrame) (src : XRHitTestSource) :
  hitTestSource st = Some src ->
  reticle_visible (render (Some fr) st)
    = match hitTestResults fr with
      | [] => false
      | _ :: _ => Nat.ltb (len st) 2
      end /\
  reticle_matrix (render (Some fr) st)
    = match hitTestResults fr with
      | Some matrix :: _ =>
          if Nat.ltb (len st) 2 then fromArray matrix else reticle_matrix st
      | _ => reticle_matrix st
      end.
Proof.
  intros Hsrc. unfold render, renderCall, len.
  destruct (hitTestSourceRequested st); cbn [hitTestSource set_hitTest points];
    rewrite Hsrc;
    destruct (hitTestResults fr) as [|[matrix|] rest];
    cbn [set_reticle points set_hitTest reticle_matrix];
    destruct (Nat.ltb (List.length (points st)) 2);
    try destruct (Nat.eqb (List.length (points st)) 0);
    split; reflexivity.
Qed.

(** A call of [render] throws exactly on a frame processed with a hit-test
    source and fewer than two points whose first hit has no pose. *)
Lemma renderCall_throws (st : State) (fr : XRFrame) :
  snd (renderCall (Some fr) st) = Throws <->
  hitTestSource st <> None /\ len st < 2 /\
  exists rest, hitTestResults fr = None :: rest.
Proof.
  unfold renderCall, len.
  destruct (hitTestSourceRequested st); cbn [hitTestSource set_hitTest points];
    destruct (hitTestSource st) as [src|];
    destruct (hitTestResults fr) as [|[matrix|] rest];
    cbn [set_reticle points set_hitTest reticle_matrix];
    destruct (Nat.ltb (List.length (points st)) 2) eqn:L;
    try destruct (Nat.eqb (List.length (points st)) 0);
    cbn [snd];
    (split;
     [ intros H; try discriminate H;
       (split; [discriminate | split; [apply Nat.ltb_lt, L | eexists; reflexivity]])
     | intros (Hs & Hl & r & Hr); try reflexivity;
       try (exfalso; apply Hs; reflexivity);
       try discriminate Hr;
       try (apply Nat.ltb_lt in Hl; congruence) ]).
Qed.

(** C3, as the code has it: a frame processed while a hit-test source is
    held shows the reticle exactly when the frame has a hit and fewer than
    two points are captured.  The reticle then sits at the transform of the
    first hit when that hit has a pose; when it has none the call throws
    after showing the reticle, which stays at the matrix it had.  In every
    other such case the reticle is hidden and has no pose.  A frame
    processed without a hit-test source leaves the reticle as it was. *)
Theorem reticle_follows_hit_test (st : State) (fr : XRFrame) :
  (forall src : XRHitTestSource,
     hitTestSource st = Some src ->
     (reticle_visible (render (Some fr) st) = true
        <-> hitTestResults fr <> [] /\ len st < 2) /\
     (forall matrix rest,
        hitTestResults fr = Some matrix :: rest -> len st < 2 ->
        Spec.reticlePose (render (Some fr) st) = Some (fromArray matrix) /\
        snd (renderCall (Some fr) st) = Returns) /\
     (forall rest,
        hitTestResults fr = None :: rest -> len st < 2 ->
        Spec.reticlePose (render (Some fr) st) = Some (reticle_matrix st) /\
        snd (renderCall (Some fr) st) = Throws) /\
     (hitTestResults fr = [] \/ 2 <= len st ->
      reticle_visible (render (Some fr) st) = false /\
      Spec.reticlePose (render (Some fr) st) = None /\
      snd (renderCall (Some fr) st) = Returns)) /\
  (hitTestSource st = None ->
   reticle_visible (render (Some fr) st) = reticle_visible st /\
   reticle_matrix (render (Some fr) st) = reticle_matrix st /\
   snd (renderCall (Some fr) st) = Returns).
Proof.
  assert (NT : forall c : Completion, c <> Throws -> c = Returns)
    by (intros [|] H; [reflexivity | contradiction]).
  split.
  - intros src Hsrc.
    destruct (render_reticle st fr src Hsrc) as [V M].
    pose proof (renderCall_throws st fr) as T.
    unfold Spec.reticlePose. rewrite V, M. clear V M.
    destruct (hitTestResults fr) as [|[matrix|] rest];
      destruct (Nat.ltb (len st) 2) eqn:L;
      [apply Nat.ltb_lt in L | apply Nat.ltb_ge in L
      | apply Nat.ltb_lt in L | apply Nat.ltb_ge in L
      | apply Nat.ltb_lt in L | apply Nat.ltb_ge in L].
    + split; [split; [discriminate | intros [C _]; contradiction]|].
      split; [intros ? ? C; discriminate C|].
      split; [intros ? C; discriminate C|].
      intros _. repeat split. apply NT. intros C. apply T in C.
      destruct C as (_ & _ & r & C). discriminate C.
    + split; [split; [discriminate | intros [C _]; contradiction]|].
      split; [intros ? ? C; discriminate C|].
      split; [intros ? C; discriminate C|].
      intros _. repeat split. apply NT. intros C. apply T in C.
      destruct C as (_ & _ & r & C). discriminate C.
    + split; [split; [intros _; split; [discriminate | exact L] | reflexivity]|].
      split; [|split].
      * intros m r E _. injection E as <- _. split; [reflexivity|].
        apply NT. intros C. apply T in C.
        destruct C as (_ & _ & r' & C). discriminate C.
      * intros r C. discriminate C.
      * intros [C|C]; [discriminate C | lia].
    + split; [split; [discriminate | intros [_ C]; lia]|].
      split; [intros ? ? _ C; lia|].
      split; [intros ? _ C; lia|].
      intros _. repeat split. apply NT. intros C. apply T in C.
      destruct C as (_ & C & _). lia.
    + split; [split; [intros _; split; [discriminate | exact L] | reflexivity]|].
      split; [|split].
      * intros m r C. discriminate C.
      * intros r _ _. split; [reflexivity|].
        apply T. split; [rewrite Hsrc; discriminate|].
        split; [exact L | exists rest; reflexivity].
      * intros [C|C]; [discriminate C | lia].
    + split; [split; [discriminate | intros [_ C]; lia]|].
      split; [intros ? ? _ C; lia|].
      split; [intros ? _ C; lia|].
      intros _. repeat split. apply NT. intros C. apply T in C.
      destruct C as (_ & C & _). lia.
  - intros Hsrc. split; [|split].
    + unfold render, renderCall.
      destruct (hitTestSourceRequested st); simpl; rewrite Hsrc; reflexivity.
    + unfold render, renderCall.
      destruct (hitTestSourceRequested st); simpl; rewrite Hsrc; reflexivity.
    + apply NT. intros C. apply renderCall_throws in C.
      destruct C as (C & _). contradiction.
Qed.

Lemma reticle_follows_hit_test_witness :
  hitTestSource Samples.tracking = Some HitTestSource /\
  Spec.reticlePose
    (render (Some {| hitTestResults := [Some (Samples.poseAt 0 1 0)] |})
       Samples.tracking)
  = Some (fromArray (Samples.poseAt 0 1 0)) /\
  Spec.reticlePose
    (render (Some {| hitTestResults := [None] |}) Samples.tracking)
  = Some (reticle_matrix Samples.tracking) /\
  snd (renderCall (Some {| hitTestResults := [None] |}) Samples.tracking)
  = Throws.
Proof.
  assert (S : hitTestSource Samples.tracking = Some HitTestSource)
    by reflexivity.
  assert (L : len Samples.tracking < 2) by (vm_compute; lia).
  split; [exact S|].
  destruct (proj1 (reticle_follows_hit_test Samples.tracking
                     {| hitTestResults := [Some (Samples.poseAt 0 1 0)] |})
              HitTestSource S) as (_ & P & _).
  destruct (proj1 (reticle_follows_hit_test Samples.tracking
                     {| hitTestResults := [None] |})
              HitTestSource S) as (_ & _ & N & _).
  split; [exact (proj1 (P _ [] eq_refl L))|].
  exact (N [] eq_refl L).
Defined.

(** C3 as stated fails: after a session ended while the reticle was shown,
    a frame without any hit leaves the reticle visible. *)
Lemma stale_reticle_counterexample :
  hitTestResults Samples.noHit = [] /\
  ~ (reticle_visible (render (Some Samples.noHit) Samples.endedWhileAiming) = true
       <-> hitTestResults Samples.noHit <> [] /\ len Samples.endedWhileAiming < 2).
Proof.
  split; [reflexivity|].
  intros [H _].
  destruct (H eq_refl) as [Hne _]. apply Hne. reflexivity.
Qed.

End ReticleProperties.

(* ================================================================== *)
(** ** The displayed distance *)
(* ================================================================== *)

Section DistanceProperties.

Import Three App.
Local Open Scope string_scope.

Lemma complete_points :
  points Samples.complete = [Samples.pointA; Samples.pointB].
Proof. vm_compute. reflexivity. Qed.

Lemma complete_unit : measureUnit Samples.complete = "m".
Proof. vm_compute. reflexivity. Qed.

Lemma length_append (s1 s2 : string) :
  String.length (s1 ++ s2) = String.length s1 + String.length s2.
Proof. induction s1 as [|c s1 IH]; simpl; [reflexivity | now rewrite IH]. Qed.

Lemma length_zeros (k : nat) : String.length (JSNumber.zeros k) = k.
Proof. induction k as [|k IH]; simpl; [reflexivity | now rewrite IH]. Qed.

Lemma length_substring (s : string) (n m : nat) :
  n + m <= String.length s -> String.length (substring n m s) = m.
Proof.
  revert n m. induction s as [|c s IH]; intros n m H; simpl in H.
  - assert (n = 0) by lia. assert (m = 0) by lia. subst. reflexivity.
  - destruct n as [|n]; destruct m as [|m]; simpl; try reflexivity.
    + rewrite IH by lia. reflexivity.
    + apply IH. lia.
    + apply IH. lia.
Qed.

(** In fixed notation, [toFixed(2)] ends with a point and two characters. *)
Lemma toFixed_two_places (v : float) :
  JSNumber.fixedNotation v = true ->
  exists sign whole frac : string,
    JSNumber.toFixed v 2 = sign ++ whole ++ "." ++ frac /\
    String.length frac = 2 /\ (sign = "" \/ sign = "-").
Proof.
  unfold JSNumber.fixedNotation, JSNumber.toFixed.
  destruct (Prim2SF v) as [sg|sg| |sg m e]; try discriminate.
  - intros _. exists "", "0", "00". repeat split. left. reflexivity.
  - intros H. apply negb_true_iff in H. rewrite H. cbn [Nat.eqb].
    set (ds := JSNumber.decimal (JSNumber.scaledRound m e 2)).
    set (ds' := if Nat.leb (String.length ds) 2
                then JSNumber.zeros (2 + 1 - String.length ds) ++ ds else ds).
    assert (L : 3 <= String.length ds').
    { unfold ds'. destruct (Nat.leb (String.length ds) 2) eqn:K.
      - apply Nat.leb_le in K. rewrite length_append, length_zeros. lia.
      - apply Nat.leb_gt in K. lia. }
    exists (if sg then "-" else ""),
           (substring 0 (String.length ds' - 2) ds'),
           (substring (String.length ds' - 2) 2 ds').
    split; [reflexivity|]. split.
    + apply length_substring. lia.
    + destruct sg; auto.
Qed.

Lemma toFixed_zero : JSNumber.toFixed 0 2 = "0.00".
Proof. vm_compute. reflexivity. Qed.

(** The [switch] multiplies by the factor of the unit. *)
Lemma displayValue_factor (unit : string) (k d : float) :
  Spec.factor unit = Some k -> displayValue unit d = Spec.convert d k.
Proof.
  unfold Spec.factor, displayValue, Spec.convert.
  destruct (String.eqb unit "m").
  { intros [= <-]. symmetry. apply float_mul_1_r. }
  destruct (String.eqb unit "cm"); [intros [= <-]; reflexivity|].
  destruct (String.eqb unit "in"); [intros [= <-]; reflexivity|].
  destruct (String.eqb unit "ft"); [intros [= <-]; reflexivity|].
  discriminate.
Qed.

Lemma displayValue_unknown (unit : string) (d : float) :
  unit <> "m" -> unit <> "cm" -> unit <> "in" -> unit <> "ft" ->
  displayValue unit d = 0%float.
Proof.
  intros Hm Hcm Hin Hft. unfold displayValue.
  apply String.eqb_neq in Hm, Hcm, Hin, Hft.
  rewrite Hm, Hcm, Hin, Hft. reflexivity.
Qed.

Lemma calculateDistance_two (st : State) (p0 p1 : Point) :
  points st = [p0; p1] ->
  distLabel (dom (calculateDistance st))
  = JSNumber.toFixed
      (displayValue (measureUnit st) (distanceTo (vec p0) (vec p1))) 2.
Proof. intros E. unfold calculateDistance. rewrite E. reflexivity. Qed.

(** C5: with fewer than two points [calculateDistance] displays the
    placeholder ["0.00"]; with two points it displays the Euclidean distance
    between the two captured positions, the square root of the sum of the
    squared coordinate differences, multiplied by the factor of the active
    unit and printed by [toFixed(2)], which for a finite value below
    [10^21] is a sign, digits, a point and two more characters. *)
Theorem calculateDistance_display (st : State) :
  (len st < 2 -> distLabel (dom (calculateDistance st)) = "0.00") /\
  (forall (p0 p1 : Point) (k : float),
     points st = [p0; p1] ->
     Spec.factor (measureUnit st) = Some k ->
     distLabel (dom (calculateDistance st))
     = JSNumber.toFixed (Spec.convert (distanceTo (vec p0) (vec p1)) k) 2 /\
     distanceTo (vec p0) (vec p1)
     = sqrt ((x (vec p0) - x (vec p1)) * (x (vec p0) - x (vec p1))
             + (y (vec p0) - y (vec p1)) * (y (vec p0) - y (vec p1))
             + (z (vec p0) - z (vec p1)) * (z (vec p0) - z (vec p1)))%float /\
     (JSNumber.fixedNotation (Spec.convert (distanceTo (vec p0) (vec p1)) k) = true ->
      exists sign whole frac : string,
        distLabel (dom (calculateDistance st)) = sign ++ whole ++ "." ++ frac /\
        String.length frac = 2 /\ (sign = "" \/ sign = "-"))).
Proof.
  split.
  - unfold len, calculateDistance.
    destruct (points st) as [|p0 [|p1 r]]; simpl; intros H;
      [reflexivity | reflexivity | lia].
  - intros p0 p1 k E F.
    assert (D : distLabel (dom (calculateDistance st))
                = JSNumber.toFixed (Spec.convert (distanceTo (vec p0) (vec p1)) k) 2).
    { rewrite (calculateDistance_two st p0 p1 E).
      rewrite (displayValue_factor _ k _ F). reflexivity. }
    split; [exact D | split; [reflexivity|]].
    rewrite D. apply toFixed_two_places.
Qed.

Lemma calculateDistance_display_witness :
  (len (init Samples.page) < 2 /\
   distLabel (dom (calculateDistance (init Samples.page))) = "0.00") /\
  (points Samples.complete = [Samples.pointA; Samples.pointB] /\
   Spec.factor (measureUnit Samples.complete) = Some 1%float /\
   distLabel (dom (calculateDistance Samples.complete)) = "1.00").
Proof.
  assert (L : len (init Samples.page) < 2) by (vm_compute; lia).
  assert (F : Spec.factor (measureUnit Samples.complete) = Some 1%float)
    by (rewrite complete_unit; reflexivity).
  split; [split; [exact L|] | split; [exact complete_points | split; [exact F|]]].
  - exact (proj1 (calculateDistance_display (init Samples.page)) L).
  - destruct (proj2 (calculateDistance_display Samples.complete)
                Samples.pointA Samples.pointB 1%float complete_points F)
      as [D _].
    rewrite D. vm_compute. reflexivity.
Defined.

(** C6: the unit switch multiplies the distance in meters by 1 for ["m"],
    by 100 for ["cm"], by 39.3701 for ["in"] and by 3.28084 for ["ft"]; with
    the two points at (0,0,0) and (1,0,0) the display reads ["1.00"],
    ["100.00"], ["39.37"] and ["3.28"] in these units. *)
Theorem unit_conversion_factors :
  (forall d : float,
     displayValue "m" d = (d * 1)%float /\
     displayValue "cm" d = (d * 100)%float /\
     displayValue "in" d = (d * 39.3701)%float /\
     displayValue "ft" d = (d * 3.28084)%float) /\
  (forall (st : State) (p0 p1 : Point),
     points st = [p0; p1] ->
     vec p0 = {| x := 0; y := 0; z := 0 |} ->
     vec p1 = {| x := 1; y := 0; z := 0 |} ->
     distLabel (dom (onUnitChange "m" st)) = "1.00" /\
     distLabel (dom (onUnitChange "cm" st)) = "100.00" /\
     distLabel (dom (onUnitChange "in" st)) = "39.37" /\
     distLabel (dom (onUnitChange "ft" st)) = "3.28").
Proof.
  split.
  - intros d. rewrite float_mul_1_r. repeat split.
  - intros st p0 p1 E E0 E1.
    unfold onUnitChange.
    repeat split;
      (rewrite (calculateDistance_two _ p0 p1) by exact E);
      cbn [measureUnit]; rewrite E0, E1; vm_compute; reflexivity.
Qed.

Lemma unit_conversion_factors_witness :
  points Samples.complete = [Samples.pointA; Samples.pointB] /\
  distLabel (dom (onUnitChange "m" Samples.complete)) = "1.00" /\
  distLabel (dom (onUnitChange "cm" Samples.complete)) = "100.00" /\
  distLabel (dom (onUnitChange "in" Samples.complete)) = "39.37" /\
  distLabel (dom (onUnitChange "ft" Samples.complete)) = "3.28".
Proof.
  split; [exact complete_points|].
  exact (proj2 unit_conversion_factors Samples.complete
           Samples.pointA Samples.pointB complete_points eq_refl eq_refl).
Defined.

(** C7: a change of unit while two points are held stores the new unit and
    displays the distance between the same two stored positions in it; the
    points, the scene, the line and the coordinate labels are untouched. *)
Theorem unit_change_recomputes (st : State) (value : string) (p0 p1 : Point) :
  points st = [p0; p1] ->
  points (onUnitChange value st) = [p0; p1] /\
  measureUnit (onUnitChange value st) = value /\
  distLabel (dom (onUnitChange value st))
  = JSNumber.toFixed (displayValue value (distanceTo (vec p0) (vec p1))) 2 /\
  scene (onUnitChange value st) = scene st /\
  measurementLine (onUnitChange value st) = measurementLine st /\
  p1Label (dom (onUnitChange value st)) = p1Label (dom st) /\
  p2Label (dom (onUnitChange value st)) = p2Label (dom st).
Proof.
  intros E. unfold onUnitChange, calculateDistance. cbn [points].
  rewrite E. repeat split.
Qed.

Lemma unit_change_recomputes_witness :
  points Samples.complete = [Samples.pointA; Samples.pointB] /\
  points (onUnitChange "ft" Samples.complete) = [Samples.pointA; Samples.pointB] /\
  distLabel (dom (onUnitChange "ft" Samples.complete)) = "3.28".
Proof.
  destruct (unit_change_recomputes Samples.complete "ft"
              Samples.pointA Samples.pointB complete_points)
    as (P & _ & D & _).
  split; [exact complete_points | split; [exact P|]].
  rewrite D. vm_compute. reflexivity.
Defined.

(** C9: the distance from A to B is the distance from B to A, bit for bit,
    and so is what is displayed for it in any unit. *)
Theorem distance_symmetric (a b : Vector3) :
  distanceTo a b = distanceTo b a /\
  forall unit : string,
    JSNumber.toFixed (displayValue unit (distanceTo a b)) 2
    = JSNumber.toFixed (displayValue unit (distanceTo b a)) 2.
Proof.
  assert (E : distanceTo a b = distanceTo b a)
    by (unfold distanceTo; rewrite distanceToSquared_sym; reflexivity).
  split; [exact E|]. intros unit. rewrite E. reflexivity.
Qed.

(** C10: with a unit string other than ["m"], ["cm"], ["in"] and ["ft"] the
    display reads ["0.00"], whatever points are held: no case of the switch
    applies and [displayValue] keeps its initial [0]. *)
Theorem unknown_unit_displays_zero (st : State) (value : string) :
  value <> "m" -> value <> "cm" -> value <> "in" -> value <> "ft" ->
  measureUnit (onUnitChange value st) = value /\
  distLabel (dom (onUnitChange value st)) = "0.00".
Proof.
  intros Hm Hcm Hin Hft. unfold onUnitChange, calculateDistance.
  cbn [points measureUnit].
  destruct (points st) as [|p0 [|p1 r]]; cbn; split; try reflexivity;
    rewrite displayValue_unknown by assumption; apply toFixed_zero.
Qed.

Lemma unknown_unit_displays_zero_witness :
  len Samples.complete = 2 /\
  distLabel (dom (onUnitChange "yd" Samples.complete)) = "0.00".
Proof.
  split; [vm_compute; reflexivity|].
  apply (unknown_unit_displays_zero Samples.complete "yd"); discriminate.
Defined.

End DistanceProperties.

(* ================================================================== *)
(** ** Reset *)
(* ================================================================== *)

Section ResetProperties.

Import Three App.
Local Open Scope string_scope.

Lemma reachable_NoDup (st : State) :
  reachable st -> NoDup (ids (scene st)).
Proof.
  intros (page & evs & ->). apply NoDup_run, NoDup_init.
Qed.

(** C8: in every reachable state, with any number of points, the reset
    empties [points], takes every marker and the line out of the scene,
    forgets the line, puts the read-outs and the button back to their
    initial content (distance ["0.00"]), and leaves the session awaiting a
    surface, or aiming at the first point when the reticle is shown. *)
Theorem reset_releases_everything (st : State) :
  reachable st ->
  len (resetMeasurement st) = 0 /\
  (forall p : Point,
     In p (points st) ->
     ~ In (id (mesh p)) (ids (scene (resetMeasurement st)))) /\
  (forall l : Object3D,
     measurementLine st = Some l ->
     ~ In (id l) (ids (scene (resetMeasurement st)))) /\
  measurementLine (resetMeasurement st) = None /\
  distLabel (dom (resetMeasurement st)) = "0.00" /\
  p1Label (dom (resetMeasurement st)) = "---" /\
  p2Label (dom (resetMeasurement st)) = "---" /\
  actionBtn_innerText (dom (resetMeasurement st)) = "Set Point 1" /\
  actionBtn_disabled (dom (resetMeasurement st)) = false /\
  instructionText (dom (resetMeasurement st))
    = "Aim at a surface and tap Set Point 1." /\
  Spec.phase (resetMeasurement st)
    = (if reticle_visible st then Spec.AIMING_P1 else Spec.AWAITING_SURFACE).
Proof.
  intros R. apply reachable_NoDup in R.
  split; [reflexivity|].
  split; [|split].
  - intros p Hp. unfold resetMeasurement. cbn [scene].
    rewrite fold_remove_map.
    assert (G : ~ In (id (mesh p)) (ids (removeAll (map mesh (points st)) (scene st))))
      by (apply removeAll_gone; [exact R | apply in_map, Hp]).
    destruct (measurementLine st) as [l|]; [|exact G].
    intros C. apply G. eapply remove_ids_incl, C.
  - intros l Hl. unfold resetMeasurement. cbn [scene].
    rewrite fold_remove_map, Hl.
    apply remove_gone, removeAll_NoDup, R.
  - repeat split.
Qed.

Lemma complete_reachable : reachable Samples.complete.
Proof.
  exists Samples.page.
  exists [StartClick; AnimationFrame (Some Samples.noHit);
          HitTestSourceReady HitTestSource;
          Samples.hitAt 0 0 0; Select; Samples.hitAt 1 0 0; Select].
  vm_compute. reflexivity.
Qed.

Lemma reset_releases_everything_witness :
  reachable Samples.complete /\
  len (resetMeasurement Samples.complete) = 0 /\
  ~ In (id (mesh Samples.pointA)) (ids (scene (resetMeasurement Samples.complete))) /\
  ~ In (id (mesh Samples.pointB)) (ids (scene (resetMeasurement Samples.complete))).
Proof.
  destruct (reset_releases_everything Samples.complete complete_reachable)
    as (L & M & _).
  split; [exact complete_reachable | split; [exact L|]].
  split; apply M; rewrite complete_points; simpl; auto.
Defined.

End ResetProperties.

(* ================================================================== *)
(** ** Sign and NaN of a distance *)
(* ================================================================== *)

Section RoundingSigns.

Import Derived.
Variables prec emax : Z.

Lemma sfSign_round_aux (m e : Z) (l : location) :
  sfSign (binary_round_aux prec emax false m e l) = false.
Proof.
  unfold binary_round_aux.
  destruct (shr_fexp prec emax m e l) as [mrs' e'].
  destruct (shr_fexp prec emax _ e' loc_Exact) as [mrs'' e''].
  destruct (shr_m mrs''); try reflexivity.
  destruct (e'' <=? emax - prec)%Z; reflexivity.
Qed.

Lemma sfSign_round (m : positive) (e : Z) :
  sfSign (binary_round prec emax false m e) = false.
Proof.
  unfold binary_round. destruct (shl_align m e _) as [mz ez].
  apply sfSign_round_aux.
Qed.

Lemma sfSign_square (v : spec_float) : sfSign (SFmul prec emax v v) = false.
Proof.
  destruct v as [s|s| |s m e]; simpl; try (destruct s; reflexivity);
    try reflexivity.
  destruct s; apply sfSign_round_aux.
Qed.

Lemma sfSign_mul (v w : spec_float) :
  sfSign v = false -> sfSign w = false -> sfSign (SFmul prec emax v w) = false.
Proof.
  destruct v as [s|s| |s m e], w as [t|t| |t n f]; simpl;
    intros Hv Hw; subst; try reflexivity.
  apply sfSign_round_aux.
Qed.

Lemma sfSign_add (v w : spec_float) :
  sfSign v = false -> sfSign w = false -> sfSign (SFadd prec emax v w) = false.
Proof.
  destruct v as [s|s| |s m e], w as [t|t| |t n f]; simpl;
    intros Hv Hw; subst; try reflexivity.
  apply sfSign_round.
Qed.

Lemma sfSign_sqrt (v : spec_float) :
  sfSign v = false -> sfSign (SFsqrt prec emax v) = false.
Proof.
  destruct v as [s|s| |s m e]; simpl; intros Hv; subst; try reflexivity.
  destruct (SFsqrt_core_binary prec emax (Z.pos m) e) as [[mz ez] lz].
  apply sfSign_round_aux.
Qed.

(** Shifting a non-negative mantissa right keeps it non-negative, so the
    rounding of one is never NaN. *)
Lemma shr_1_nonneg (mrs : shr_record) :
  (0 <= shr_m mrs)%Z -> (0 <= shr_m (shr_1 mrs))%Z.
Proof.
  destruct mrs as [m r s]. simpl.
  destruct m as [|[p|p|]|p]; simpl; lia.
Qed.

Lemma iter_shr_1_nonneg (n : positive) (mrs : shr_record) :
  (0 <= shr_m mrs)%Z -> (0 <= shr_m (iter_pos shr_1 n mrs))%Z.
Proof.
  revert mrs. induction n as [n IH|n IH|]; intros mrs H; simpl.
  - apply IH, IH, shr_1_nonneg, H.
  - apply IH, IH, H.
  - apply shr_1_nonneg, H.
Qed.

Lemma shr_fexp_nonneg (m e : Z) (l : location) :
  (0 <= m)%Z -> (0 <= shr_m (fst (shr_fexp prec emax m e l)))%Z.
Proof.
  intros H. unfold shr_fexp, shr.
  assert (R : (0 <= shr_m (shr_record_of_loc m l))%Z)
    by (destruct l as [|[| |]]; exact H).
  destruct (fexp prec emax (Zdigits2 m + e) - e)%Z; simpl; try exact R.
  apply iter_shr_1_nonneg, R.
Qed.

Lemma round_nearest_even_nonneg (m : Z) (l : location) :
  (0 <= m)%Z -> (0 <= round_nearest_even m l)%Z.
Proof.
  intros H. destruct l as [|[| |]]; simpl; try lia.
  destruct (IntDef.Z.even m); lia.
Qed.

Lemma round_aux_number (s : bool) (m e : Z) (l : location) :
  (0 <= m)%Z -> sfIsNaN (binary_round_aux prec emax s m e l) = false.
Proof.
  intros H. unfold binary_round_aux.
  pose proof (shr_fexp_nonneg m e l H) as A.
  destruct (shr_fexp prec emax m e l) as [mrs' e']. simpl in A.
  pose proof (shr_fexp_nonneg _ e' loc_Exact
                (round_nearest_even_nonneg _ (loc_of_shr_record mrs') A)) as B.
  destruct (shr_fexp prec emax _ e' loc_Exact) as [mrs'' e'']. simpl in B.
  destruct (shr_m mrs''); try reflexivity; [|lia].
  destruct (e'' <=? emax - prec)%Z; reflexivity.
Qed.

Lemma round_number (s : bool) (m : positive) (e : Z) :
  sfIsNaN (binary_round prec emax s m e) = false.
Proof.
  unfold binary_round. destruct (shl_align m e _) as [mz ez].
  apply round_aux_number. lia.
Qed.

Lemma normalize_number (m e : Z) (sz : bool) :
  sfIsNaN (binary_normalize prec emax m e sz) = false.
Proof. destruct m; simpl; auto using round_number. Qed.

(** The difference of two finite values is a Number. *)
Lemma sub_number (v w : spec_float) :
  sfIsFinite v = true -> sfIsFinite w = true ->
  sfIsNaN (SFsub prec emax v w) = false.
Proof.
  destruct v as [s|s| |s m e], w as [t|t| |t n f]; simpl;
    try discriminate; intros _ _; try reflexivity.
  - destruct s, t; reflexivity.
  - apply normalize_number.
Qed.

Lemma square_number (v : spec_float) :
  sfIsNaN v = false -> sfIsNaN (SFmul prec emax v v) = false.
Proof.
  destruct v as [s|s| |s m e]; simpl; try discriminate; intros _;
    try reflexivity.
  apply round_aux_number. lia.
Qed.

Lemma mul_finite_number (v : spec_float) (s : bool) (m : positive) (e : Z) :
  sfIsNaN v = false ->
  sfIsNaN (SFmul prec emax v (S754_finite s m e)) = false.
Proof.
  destruct v as [t|t| |t n f]; simpl; try discriminate; intros _;
    try reflexivity.
  apply round_aux_number. lia.
Qed.

Lemma add_number (v w : spec_float) :
  sfIsNaN v = false -> sfSign v = false ->
  sfIsNaN w = false -> sfSign w = false ->
  sfIsNaN (SFadd prec emax v w) = false.
Proof.
  destruct v as [s|s| |s m e], w as [t|t| |t n f]; simpl;
    try discriminate; intros _ Hv _ Hw; subst; try reflexivity.
  apply round_number.
Qed.

Lemma sqrt_core_nonneg (m e : Z) :
  (0 <= fst (fst (SFsqrt_core_binary prec emax m e)))%Z.
Proof.
  unfold SFsqrt_core_binary. cbv zeta.
  match goal with
  | |- context [IntDef.Z.sqrtrem ?a] =>
      assert (Q : (0 <= fst (IntDef.Z.sqrtrem a))%Z);
      [ | destruct (IntDef.Z.sqrtrem a) as [q r]; exact Q ]
  end.
  unfold IntDef.Z.sqrtrem.
  match goal with
  | |- context [match ?a with 0%Z => _ | Z.pos _ => _ | Z.neg _ => _ end] =>
      destruct a as [|p|p]
  end; simpl; try lia.
  destruct (PosDef.Pos.sqrtrem p) as [q [|r|]]; simpl; lia.
Qed.

Lemma sqrt_number (v : spec_float) :
  sfIsNaN v = false -> sfSign v = false ->
  sfIsNaN (SFsqrt prec emax v) = false.
Proof.
  destruct v as [s|s| |s m e]; simpl; try discriminate; intros _ Hv; subst;
    try reflexivity.
  pose proof (sqrt_core_nonneg (Z.pos m) e) as Q.
  destruct (SFsqrt_core_binary prec emax (Z.pos m) e) as [[mz ez] lz].
  apply round_aux_number. exact Q.
Qed.

(** A finite value minus itself is [+0]. *)
Lemma sub_diag (v : spec_float) :
  sfIsFinite v = true -> SFsub prec emax v v = S754_zero false.
Proof.
  destruct v as [s|s| |s m e]; simpl; try discriminate; intros _.
  - destruct s; reflexivity.
  - rewrite Z.sub_diag. reflexivity.
Qed.

End RoundingSigns.

Section DistanceNumbers.

Import Three App Derived.
Local Open Scope string_scope.

Lemma signBit_distanceTo (a b : Vector3) : signBit (distanceTo a b) = false.
Proof.
  unfold signBit, distanceTo, distanceToSquared.
  rewrite sqrt_spec, !add_spec, !mul_spec.
  apply sfSign_sqrt, sfSign_add; [apply sfSign_add|]; apply sfSign_square.
Qed.

Lemma signBit_displayValue (unit : string) (d : float) :
  signBit d = false -> signBit (displayValue unit d) = false.
Proof.
  intros H. unfold displayValue.
  destruct (String.eqb unit "m"); [exact H|].
  destruct (String.eqb unit "cm");
    [unfold signBit; rewrite mul_spec; apply sfSign_mul; [exact H | reflexivity]|].
  destruct (String.eqb unit "in");
    [unfold signBit; rewrite mul_spec; apply sfSign_mul; [exact H | reflexivity]|].
  destruct (String.eqb unit "ft");
    [unfold signBit; rewrite mul_spec; apply sfSign_mul; [exact H | reflexivity]|].
  reflexivity.
Qed.

Lemma signBit_not_below_zero (v : float) :
  signBit v = false -> (v <? 0)%float = false.
Proof.
  unfold signBit. rewrite ltb_spec.
  change (Prim2SF 0) with (S754_zero false).
  destruct (Prim2SF v) as [s|s| |s m e]; simpl; intros H; subst; reflexivity.
Qed.

Lemma allDigits_append (a b : string) :
  allDigits (a ++ b) = allDigits a && allDigits b.
Proof.
  induction a as [|c a IH]; simpl; [reflexivity|].
  rewrite IH, andb_assoc. reflexivity.
Qed.

Lemma allDigits_zeros (k : nat) : allDigits (JSNumber.zeros k) = true.
Proof. induction k as [|k IH]; simpl; [reflexivity | exact IH]. Qed.

Lemma allDigits_substring (s : string) (n m : nat) :
  allDigits s = true -> allDigits (substring n m s) = true.
Proof.
  revert n m. induction s as [|c s IH]; intros n m H.
  - destruct n, m; reflexivity.
  - simpl in H. apply andb_true_iff in H. destruct H as [Hc Hs].
    destruct n as [|n]; destruct m as [|m]; simpl; auto.
    rewrite Hc. simpl. auto.
Qed.

Lemma allDigits_string_of_uint (d : Decimal.uint) :
  allDigits (NilEmpty.string_of_uint d) = true.
Proof. induction d; simpl; auto. Qed.

Lemma allDigits_decimal (n : Z) : allDigits (JSNumber.decimal n) = true.
Proof.
  unfold JSNumber.decimal, NilZero.string_of_uint.
  destruct (N.to_uint (Z.to_N n)) eqn:E; try reflexivity;
    rewrite <- E; apply allDigits_string_of_uint.
Qed.

(** In fixed notation, [toFixed(2)] of a value without a sign is digits, a
    point and two digits. *)
Lemma toFixed_unsigned (v : float) :
  signBit v = false -> JSNumber.fixedNotation v = true ->
  exists whole frac : string,
    JSNumber.toFixed v 2 = whole ++ "." ++ frac /\
    1 <= String.length whole /\ allDigits whole = true /\
    String.length frac = 2 /\ allDigits frac = true.
Proof.
  unfold signBit, JSNumber.fixedNotation, JSNumber.toFixed.
  destruct (Prim2SF v) as [sg|sg| |sg m e]; try discriminate.
  - intros _ _. exists "0", "00". repeat split. simpl. lia.
  - simpl sfSign. intros -> H. apply negb_true_iff in H. rewrite H.
    cbn [Nat.eqb].
    set (ds := JSNumber.decimal (JSNumber.scaledRound m e 2)).
    set (ds' := if Nat.leb (String.length ds) 2
                then JSNumber.zeros (2 + 1 - String.length ds) ++ ds else ds).
    assert (L : 3 <= String.length ds').
    { unfold ds'. destruct (Nat.leb (String.length ds) 2) eqn:K.
      - apply Nat.leb_le in K. rewrite length_append, length_zeros. lia.
      - apply Nat.leb_gt in K. lia. }
    assert (A : allDigits ds' = true).
    { unfold ds'. destruct (Nat.leb (String.length ds) 2).
      - rewrite allDigits_append, allDigits_zeros. apply allDigits_decimal.
      - apply allDigits_decimal. }
    exists (substring 0 (String.length ds' - 2) ds'),
           (substring (String.length ds' - 2) 2 ds').
    split; [reflexivity|].
    split; [rewrite length_substring by lia; lia|].
    split; [apply allDigits_substring, A|].
    split; [apply length_substring; lia | apply allDigits_substring, A].
Qed.

(** X1: whatever the two positions and the unit, the value displayed for
    their distance has no minus sign: its sign bit is clear, it does not
    compare below zero, and in fixed notation it prints as one or more
    decimal digits, a point and two decimal digits, with nothing in front. *)
Theorem distance_never_negative (unit : string) (a b : Vector3) :
  signBit (displayValue unit (distanceTo a b)) = false /\
  (displayValue unit (distanceTo a b) <? 0)%float = false /\
  (JSNumber.fixedNotation (displayValue unit (distanceTo a b)) = true ->
   exists whole frac : string,
     JSNumber.toFixed (displayValue unit (distanceTo a b)) 2
       = whole ++ "." ++ frac /\
     1 <= String.length whole /\ allDigits whole = true /\
     String.length frac = 2 /\ allDigits frac = true).
Proof.
  assert (S : signBit (displayValue unit (distanceTo a b)) = false)
    by apply signBit_displayValue, signBit_distanceTo.
  split; [exact S | split].
  - apply signBit_not_below_zero, S.
  - apply toFixed_unsigned, S.
Qed.

Lemma distance_never_negative_witness :
  JSNumber.fixedNotation
    (displayValue "in" (distanceTo (vec Samples.pointB) (vec Samples.pointA))) = true /\
  exists whole frac : string,
    JSNumber.toFixed
      (displayValue "in" (distanceTo (vec Samples.pointB) (vec Samples.pointA))) 2
      = whole ++ "." ++ frac /\
    1 <= String.length whole /\ allDigits whole = true /\
    String.length frac = 2 /\ allDigits frac = true.
Proof.
  assert (F : JSNumber.fixedNotation
                (displayValue "in"
                   (distanceTo (vec Samples.pointB) (vec Samples.pointA))) = true)
    by (vm_compute; reflexivity).
  split; [exact F|].
  exact (proj2 (proj2 (distance_never_negative "in"
                         (vec Samples.pointB) (vec Samples.pointA))) F).
Defined.

Lemma isNaN_sub (u v : float) :
  isFinite u = true -> isFinite v = true ->
  isNaN (u - v) = false.
Proof.
  unfold isFinite, isNaN. rewrite sub_spec. apply sub_number.
Qed.

Lemma distanceTo_number (a b : Vector3) :
  finiteVector a = true -> finiteVector b = true ->
  isNaN (distanceTo a b) = false.
Proof.
  unfold finiteVector. rewrite !andb_true_iff.
  intros [[Ax Ay] Az] [[Bx By] Bz].
  pose proof (isNaN_sub _ _ Ax Bx) as Dx.
  pose proof (isNaN_sub _ _ Ay By) as Dy.
  pose proof (isNaN_sub _ _ Az Bz) as Dz.
  unfold isNaN in *. unfold distanceTo, distanceToSquared.
  rewrite sqrt_spec, !add_spec, !mul_spec.
  unfold SF64sqrt, SF64add, SF64mul.
  apply sqrt_number.
  - apply add_number.
    + apply add_number.
      * apply square_number, Dx.
      * apply sfSign_square.
      * apply square_number, Dy.
      * apply sfSign_square.
    + apply sfSign_add; apply sfSign_square.
    + apply square_number, Dz.
    + apply sfSign_square.
  - apply sfSign_add; [apply sfSign_add|]; apply sfSign_square.
Qed.

Lemma isNaN_displayValue (unit : string) (d : float) :
  isNaN d = false -> isNaN (displayValue unit d) = false.
Proof.
  intros H. unfold displayValue.
  destruct (String.eqb unit "m"); [exact H|].
  unfold isNaN in *.
  destruct (String.eqb unit "cm").
  { rewrite mul_spec.
    destruct (Prim2SF 100) as [s|s| |s m e] eqn:K;
      try (vm_compute in K; discriminate).
    apply mul_finite_number, H. }
  destruct (String.eqb unit "in").
  { rewrite mul_spec.
    destruct (Prim2SF 39.3701) as [s|s| |s m e] eqn:K;
      try (vm_compute in K; discriminate).
    apply mul_finite_number, H. }
  destruct (String.eqb unit "ft").
  { rewrite mul_spec.
    destruct (Prim2SF 3.28084) as [s|s| |s m e] eqn:K;
      try (vm_compute in K; discriminate).
    apply mul_finite_number, H. }
  reflexivity.
Qed.

(** X2: between two positions with finite coordinates the distance, in
    meters and in any unit, is a Number: the computation never produces
    NaN. *)
Theorem finite_points_give_a_number (unit : string) (a b : Vector3) :
  finiteVector a = true -> finiteVector b = true ->
  isNaN (distanceTo a b) = false /\
  isNaN (displayValue unit (distanceTo a b)) = false.
Proof.
  intros A B. pose proof (distanceTo_number a b A B) as N.
  split; [exact N | apply isNaN_displayValue, N].
Qed.

Lemma finite_points_give_a_number_witness :
  finiteVector (vec Samples.pointA) = true /\
  finiteVector (vec Samples.pointB) = true /\
  isNaN (displayValue "ft" (distanceTo (vec Samples.pointA) (vec Samples.pointB)))
    = false.
Proof.
  assert (A : finiteVector (vec Samples.pointA) = true) by (vm_compute; reflexivity).
  assert (B : finiteVector (vec Samples.pointB) = true) by (vm_compute; reflexivity).
  split; [exact A | split; [exact B|]].
  exact (proj2 (finite_points_give_a_number "ft" _ _ A B)).
Defined.

Lemma float_sub_diag (u : float) : isFinite u = true -> (u - u = 0)%float.
Proof.
  unfold isFinite. intros H. apply Prim2SF_inj.
  rewrite sub_spec. unfold SF64sub. rewrite (sub_diag _ _ _ H). reflexivity.
Qed.

Lemma displayValue_zero (unit : string) :
  JSNumber.toFixed (displayValue unit 0) 2 = "0.00".
Proof.
  unfold displayValue.
  destruct (String.eqb unit "m"); [vm_compute; reflexivity|].
  destruct (String.eqb unit "cm"); [vm_compute; reflexivity|].
  destruct (String.eqb unit "in"); [vm_compute; reflexivity|].
  destruct (String.eqb unit "ft"); vm_compute; reflexivity.
Qed.

(** X3: the distance from a position with finite coordinates to itself is
    exactly [0], and displays as ["0.00"] in any unit. *)
Theorem distance_to_itself (unit : string) (a : Vector3) :
  finiteVector a = true ->
  distanceTo a a = 0%float /\
  JSNumber.toFixed (displayValue unit (distanceTo a a)) 2 = "0.00".
Proof.
  unfold finiteVector. rewrite !andb_true_iff. intros [[Ax Ay] Az].
  assert (D : distanceTo a a = 0%float).
  { unfold distanceTo, distanceToSquared.
    rewrite (float_sub_diag _ Ax), (float_sub_diag _ Ay), (float_sub_diag _ Az).
    vm_compute. reflexivity. }
  split; [exact D|]. rewrite D. apply displayValue_zero.
Qed.

Lemma distance_to_itself_witness :
  finiteVector (vec Samples.pointB) = true /\
  distanceTo (vec Samples.pointB) (vec Samples.pointB) = 0%float.
Proof.
  assert (B : finiteVector (vec Samples.pointB) = true) by (vm_compute; reflexivity).
  split; [exact B|].
  exact (proj1 (distance_to_itself "m" _ B)).
Defined.

End DistanceNumbers.

(* ================================================================== *)
(** ** The scene holds the measurement *)
(* ================================================================== *)

Section SceneInvariant.

Import Three App Derived.

Lemma remove_fresh (o : Object3D) (sc : Scene) :
  ~ In (id o) (ids sc) -> remove o sc = sc.
Proof.
  induction sc as [|c rest IH]; simpl; intros H; [reflexivity|].
  destruct (Nat.eqb (id c) (id o)) eqn:E.
  - apply Nat.eqb_eq in E. tauto.
  - rewrite IH by tauto. reflexivity.
Qed.

Lemma remove_app_fresh (o : Object3D) (sc1 sc2 : Scene) :
  ~ In (id o) (ids sc1) -> remove o (sc1 ++ sc2) = sc1 ++ remove o sc2.
Proof.
  induction sc1 as [|c rest IH]; simpl; intros H; [reflexivity|].
  destruct (Nat.eqb (id c) (id o)) eqn:E.
  - apply Nat.eqb_eq in E. tauto.
  - rewrite IH by tauto. reflexivity.
Qed.

Lemma remove_head (o : Object3D) (sc : Scene) : remove o (o :: sc) = sc.
Proof. simpl. rewrite Nat.eqb_refl. reflexivity. Qed.

Lemma add_fresh (o : Object3D) (sc : Scene) :
  ~ In (id o) (ids sc) -> add o sc = sc ++ [o].
Proof. intros H. unfold add. rewrite remove_fresh by exact H. reflexivity. Qed.

(** Removing, one after the other, objects that sit side by side in the
    scene takes out exactly these. *)
Lemma removeAll_block (os : list Object3D) (before after : Scene) :
  (forall o, In o os -> ~ In (id o) (ids before)) ->
  removeAll os (before ++ os ++ after) = before ++ after.
Proof.
  revert before. induction os as [|o os IH]; intros before H; [reflexivity|].
  simpl. rewrite remove_app_fresh by (apply H; left; reflexivity).
  rewrite remove_head. apply IH. intros o' Ho'. apply H. right. exact Ho'.
Qed.

Lemma ids_app (sc1 sc2 : Scene) : ids (sc1 ++ sc2) = ids sc1 ++ ids sc2.
Proof. apply map_app. Qed.

(** The children [init] adds were made before anything else. *)
Lemma init_ids_below (page : DOM) (i : nat) :
  In i (ids (scene (init page))) -> i < nextId (init page).
Proof. simpl. intros [<-|[<-|[<-|[]]]]; lia. Qed.

Lemma owned_not_in_init (page : DOM) (st : State) (o : Object3D) :
  Forall (fun o => nextId (init page) <= id o < nextId st) (owned st) ->
  In o (owned st) -> ~ In (id o) (ids (scene (init page))).
Proof.
  intros F Ho Hin. rewrite Forall_forall in F.
  specialize (F o Ho). apply init_ids_below in Hin. lia.
Qed.

Lemma sceneInvariant_same (page : DOM) (st st' : State) :
  measurementOf st' = measurementOf st ->
  sceneInvariant page st -> sceneInvariant page st'.
Proof.
  unfold measurementOf, sceneInvariant, owned, lineJoinsPoints, len.
  intros [= -> -> -> ->]. tauto.
Qed.

Lemma sceneInvariant_init (page : DOM) : sceneInvariant page (init page).
Proof.
  unfold sceneInvariant, owned, lineJoinsPoints, len. simpl.
  repeat split; try constructor; lia.
Qed.

Lemma measurementOf_calculateDistance (st : State) :
  measurementOf (calculateDistance st) = measurementOf st.
Proof. destruct (calculateDistance_dom st) as [t ->]. reflexivity. Qed.

Lemma measurementOf_render (frame : option XRFrame) (st : State) :
  measurementOf (render frame st) = measurementOf st.
Proof.
  unfold render, renderCall. destruct frame as [fr|]; [|reflexivity].
  destruct (hitTestSourceRequested st); simpl;
    destruct (hitTestSource st); simpl; try reflexivity;
    destruct (hitTestResults fr) as [|[m|] rest]; simpl;
    destruct (Nat.ltb (List.length (points st)) 2); simpl; try reflexivity;
    destruct (Nat.eqb (List.length (points st)) 0); reflexivity.
Qed.

Lemma onSelect_withCapture (st : State) :
  reticle_visible st = true -> len st < 2 ->
  onSelect st = updateUIState (withCapture st).
Proof.
  intros V L. unfold onSelect, withCapture, len in *. rewrite V.
  apply Nat.leb_gt in L. rewrite L. reflexivity.
Qed.

(** With a scene in order, a capture appends the marker, and the second
    capture the line after it. *)
Lemma sceneInvariant_capture (page : DOM) (st : State) :
  len st < 2 -> sceneInvariant page st ->
  sceneInvariant page (updateUIState (withCapture st)).
Proof.
  intros L (Sc & N0 & B & ND & M & J).
  assert (Ln : measurementLine st = None).
  { unfold lineJoinsPoints in J. destruct (measurementLine st); [|reflexivity].
    destruct J as (p0 & p1 & E & _). unfold len in L. rewrite E in L.
    simpl in L. lia. }
  pose proof (init_ids_below page) as Base.
  unfold sceneInvariant.
  set (base := scene (init page)) in *.
  set (n0 := nextId (init page)) in *.
  unfold owned in *. rewrite Ln in Sc, B, ND. cbn [lineList] in Sc, B, ND.
  rewrite app_nil_r in Sc, B, ND.
  assert (Fresh : forall n, nextId st <= n -> ~ In n (ids (scene st))).
  { intros n Hn Hin. rewrite Sc, ids_app in Hin. apply in_app_or in Hin.
    destruct Hin as [Hin|Hin].
    - apply Base in Hin. lia.
    - unfold ids in Hin. apply in_map_iff in Hin. destruct Hin as (o & <- & Ho).
      rewrite Forall_forall in B. specialize (B o Ho). lia. }
  unfold len in L.
  destruct (points st) as [|p0 [|p1 r]] eqn:P; [| |simpl in L; lia].
  - (* first point *)
    assert (E : measurementOf (updateUIState (withCapture st))
                = (base ++ [mesh (capturedPoint st)], S (nextId st),
                   [capturedPoint st], None)).
    { unfold updateUIState, withCapture. cbn [points]. rewrite P.
      cbn [app]. unfold with_dom, measurementOf.
      cbn [points scene nextId measurementLine].
      rewrite add_fresh by (apply Fresh; simpl; lia).
      rewrite Sc, Ln. cbn [map]. rewrite app_nil_r. reflexivity. }
    unfold measurementOf in E. injection E as E1 E2 E3 E4.
    unfold lineJoinsPoints, len. rewrite E1, E2, E3, E4.
    cbn [map lineList app List.length].
    repeat split; try lia.
    + repeat constructor; simpl; lia.
    + repeat constructor. simpl. tauto.
    + repeat constructor.
  - (* second point, and the line *)
    cbn [map] in Sc, B, ND. inversion B as [|? ? B0 _]; subst.
    inversion M as [|? ? M0 _]; subst.
    assert (E : measurementOf (updateUIState (withCapture st))
                = (base
                     ++ [mesh p0; mesh (capturedPoint st);
                         {| id := S (nextId st);
                            kind := Line (vec p0) (vec (capturedPoint st));
                            position := origin |}],
                   S (S (nextId st)),
                   [p0; capturedPoint st],
                   Some {| id := S (nextId st);
                           kind := Line (vec p0) (vec (capturedPoint st));
                           position := origin |})).
    { unfold updateUIState, withCapture. cbn [points]. rewrite P.
      cbn [app]. rewrite measurementOf_calculateDistance.
      unfold drawLine, with_dom, measurementOf.
      cbn [points scene nextId measurementLine vec].
      rewrite (add_fresh (mesh (capturedPoint st)))
        by (apply Fresh; simpl; lia).
      rewrite add_fresh.
      - rewrite Sc, <- !app_assoc. reflexivity.
      - rewrite ids_app. intros Hin. apply in_app_or in Hin.
        destruct Hin as [Hin|Hin].
        + apply (Fresh (S (nextId st))); [lia | exact Hin].
        + simpl in Hin. lia. }
    unfold measurementOf in E. injection E as E1 E2 E3 E4.
    unfold lineJoinsPoints, len. rewrite E1, E2, E3, E4.
    cbn [map lineList app List.length].
    repeat split; try lia.
    + repeat constructor; simpl; lia.
    + repeat constructor; simpl; lia.
    + destruct M0. repeat constructor; assumption.
    + exists p0, (capturedPoint st). split; reflexivity.
Qed.

Lemma sceneInvariant_onSelect (page : DOM) (st : State) :
  sceneInvariant page st -> sceneInvariant page (onSelect st).
Proof.
  intros I.
  destruct (reticle_visible st) eqn:V;
    [|rewrite onSelect_ignored by (left; exact V); exact I].
  destruct (Nat.ltb (len st) 2) eqn:L.
  - apply Nat.ltb_lt in L. rewrite onSelect_withCapture by assumption.
    apply sceneInvariant_capture; assumption.
  - apply Nat.ltb_ge in L. rewrite onSelect_ignored by (right; exact L).
    exact I.
Qed.

Lemma scene_resetMeasurement (page : DOM) (st : State) :
  sceneInvariant page st ->
  scene (resetMeasurement st) = scene (init page).
Proof.
  intros (Sc & N0 & B & ND & M & J).
  pose proof (fun o => owned_not_in_init page st o B) as NotIn.
  unfold resetMeasurement. cbn [scene]. rewrite fold_remove_map, Sc.
  unfold owned in *.
  rewrite removeAll_block
    by (intros o Ho; apply NotIn, in_or_app; left; exact Ho).
  destruct (measurementLine st) as [l|]; cbn [lineList]; [|apply app_nil_r].
  rewrite remove_app_fresh
    by (apply NotIn, in_or_app; right; left; reflexivity).
  rewrite remove_head. apply app_nil_r.
Qed.

Lemma sceneInvariant_resetMeasurement (page : DOM) (st : State) :
  sceneInvariant page st -> sceneInvariant page (resetMeasurement st).
Proof.
  intros I. pose proof (scene_resetMeasurement page st I) as Sc.
  destruct I as (_ & N0 & _).
  unfold sceneInvariant, owned, lineJoinsPoints, len.
  rewrite Sc. cbn [resetMeasurement points measurementLine nextId map lineList app List.length].
  rewrite app_nil_r.
  repeat split; try constructor; try assumption; lia.
Qed.

Lemma sceneInvariant_step (page : DOM) (st : State) (ev : Event) :
  sceneInvariant page st -> sceneInvariant page (step st ev).
Proof.
  intros I. destruct ev; simpl.
  - exact I.
  - apply (sceneInvariant_same page st _ (measurementOf_render frame st) I).
  - exact I.
  - apply sceneInvariant_onSelect, I.
  - unfold onActionClick.
    destruct (actionBtn_disabled (dom st)); [exact I|].
    destruct (actionBtn_onclick (dom st));
      auto using sceneInvariant_onSelect.
  - apply sceneInvariant_resetMeasurement, I.
  - unfold onUnitChange.
    eapply sceneInvariant_same; [apply measurementOf_calculateDistance|].
    eapply sceneInvariant_same; [|exact I]. reflexivity.
  - destruct (hitTestSourceRequested st); exact I.
Qed.

Lemma sceneInvariant_run (page : DOM) (st : State) (evs : list Event) :
  sceneInvariant page st -> sceneInvariant page (run st evs).
Proof.
  revert st. induction evs as [|ev evs IH]; simpl; intros st I; [exact I|].
  apply IH, sceneInvariant_step, I.
Qed.

(** X4: whatever the events, the children of the scene are the three
    objects of [init] followed by one marker for each captured point, in
    capture order, and then the line; the handles of these objects are
    distinct and older than the next one to come; each marker is a sphere at
    the position of its point; and the line is there exactly when two points
    are held, joining their positions. *)
Theorem scene_holds_the_measurement (page : DOM) (evs : list Event) :
  scene (run (init page) evs)
    = scene (init page) ++ map mesh (points (run (init page) evs))
        ++ lineList (measurementLine (run (init page) evs)) /\
  NoDup (ids (owned (run (init page) evs))) /\
  Forall (fun o => id o < nextId (run (init page) evs))
         (owned (run (init page) evs)) /\
  Forall (fun p => kind (mesh p) = SphereMesh /\ position (mesh p) = vec p)
         (points (run (init page) evs)) /\
  (measurementLine (run (init page) evs) = None
     <-> len (run (init page) evs) < 2) /\
  (forall l, measurementLine (run (init page) evs) = Some l ->
     exists p0 p1,
       points (run (init page) evs) = [p0; p1] /\
       kind l = Line (vec p0) (vec p1)).
Proof.
  destruct (sceneInvariant_run page (init page) evs (sceneInvariant_init page))
    as (Sc & N0 & B & ND & M & J).
  split; [exact Sc | split; [exact ND | split; [|split; [exact M|]]]].
  - eapply Forall_impl; [|exact B]. simpl. intros o H. lia.
  - unfold lineJoinsPoints in J.
    destruct (measurementLine (run (init page) evs)) as [l|].
    + destruct J as (p0 & p1 & E & K). split.
      * split; [discriminate|]. unfold len. rewrite E. simpl. lia.
      * intros l' [= <-]. exists p0, p1. split; assumption.
    + split; [tauto | discriminate].
Qed.

Lemma scene_holds_the_measurement_witness :
  measurementLine (run (init Samples.page) Samples.session) = Some sampleLine /\
  exists p0 p1,
    points (run (init Samples.page) Samples.session) = [p0; p1] /\
    kind sampleLine = Line (vec p0) (vec p1).
Proof.
  assert (L : measurementLine (run (init Samples.page) Samples.session)
              = Some sampleLine) by (vm_compute; reflexivity).
  split; [exact L|].
  destruct (scene_holds_the_measurement Samples.page Samples.session)
    as (_ & _ & _ & _ & _ & J).
  exact (J sampleLine L).
Defined.

(** X5: after any events, the reset leaves in the scene exactly the three
    objects [init] put there: no marker and no line stays behind. *)
Theorem reset_restores_initial_scene (page : DOM) (evs : list Event) :
  scene (resetMeasurement (run (init page) evs)) = scene (init page) /\
  scene (run (init page) (evs ++ [ResetClick])) = scene (init page).
Proof.
  assert (E : scene (resetMeasurement (run (init page) evs)) = scene (init page))
    by apply scene_resetMeasurement, sceneInvariant_run, sceneInvariant_init.
  split; [exact E|].
  unfold run. rewrite fold_left_app. exact E.
Qed.

End SceneInvariant.

(* ================================================================== *)
(** ** Captured points stay, and nothing is captured before tracking *)
(* ================================================================== *)

Section CaptureOrder.

Import Three App Derived.

Lemma points_onSelect_app (st : State) :
  exists later, points (onSelect st) = points st ++ later.
Proof.
  destruct (reticle_visible st) eqn:V;
    [|exists []; rewrite onSelect_ignored by (left; exact V);
      symmetry; apply app_nil_r].
  destruct (Nat.ltb (len st) 2) eqn:L.
  - apply Nat.ltb_lt in L. rewrite onSelect_withCapture by assumption.
    rewrite points_updateUIState. exists [capturedPoint st]. reflexivity.
  - apply Nat.ltb_ge in L. exists [].
    rewrite onSelect_ignored by (right; exact L). symmetry; apply app_nil_r.
Qed.

Lemma points_step_app (st : State) (ev : Event) :
  ev <> ResetClick -> exists later, points (step st ev) = points st ++ later.
Proof.
  intros Hev.
  assert (Same : forall st', points st' = points st ->
                 exists later, points st' = points st ++ later)
    by (intros st' ->; exists []; symmetry; apply app_nil_r).
  destruct ev; simpl.
  - apply Same. reflexivity.
  - apply Same, points_render.
  - apply Same. reflexivity.
  - apply points_onSelect_app.
  - unfold onActionClick.
    destruct (actionBtn_disabled (dom st)); [apply Same; reflexivity|].
    destruct (actionBtn_onclick (dom st)); [|apply points_onSelect_app].
    destruct (points_onSelect_app st) as [l1 E1].
    destruct (points_onSelect_app (onSelect st)) as [l2 E2].
    exists (l1 ++ l2). rewrite E2, E1, app_assoc. reflexivity.
  - congruence.
  - apply Same, points_onUnitChange.
  - destruct (hitTestSourceRequested st); apply Same; reflexivity.
Qed.

(** X6: as long as the reset button is not clicked, the points captured so
    far stay where they are in [points], unchanged and in order; events only
    ever append to them. *)
Theorem captured_points_are_kept (st : State) (evs : list Event) :
  Forall (fun ev => ev <> ResetClick) evs ->
  exists later : list Point, points (run st evs) = points st ++ later.
Proof.
  intros H. revert st. induction H as [|ev evs Hev _ IH]; intros st.
  - exists []. symmetry. apply app_nil_r.
  - simpl. destruct (IH (step st ev)) as [l2 E2].
    destruct (points_step_app st ev Hev) as [l1 E1].
    exists (l1 ++ l2). rewrite E2, E1, app_assoc. reflexivity.
Qed.

Lemma captured_points_are_kept_witness :
  Forall (fun ev => ev <> ResetClick)
    [UnitChange "ft"%string; Samples.hitAt 1 0 0; ActionClick; SessionEnd] /\
  exists later : list Point,
    points (run Samples.onePoint
              [UnitChange "ft"%string; Samples.hitAt 1 0 0; ActionClick; SessionEnd])
    = points Samples.onePoint ++ later.
Proof.
  assert (H : Forall (fun ev => ev <> ResetClick)
                [UnitChange "ft"%string; Samples.hitAt 1 0 0; ActionClick; SessionEnd])
    by (repeat constructor; discriminate).
  split; [exact H|].
  exact (captured_points_are_kept Samples.onePoint _ H).
Defined.

Lemma idle_step (page : DOM) (st : State) (ev : Event) :
  isSourceReady ev = false ->
  reticle_visible st = false /\ hitTestSource st = None /\
  measurementOf st = measurementOf (init page) ->
  reticle_visible (step st ev) = false /\ hitTestSource (step st ev) = None /\
  measurementOf (step st ev) = measurementOf (init page).
Proof.
  intros Hev (V & S & M).
  assert (Sel : onSelect st = st) by (apply onSelect_ignored; left; exact V).
  destruct ev; simpl; try discriminate.
  - auto.
  - unfold render, renderCall. destruct frame as [fr|]; [|auto].
    destruct (hitTestSourceRequested st); simpl; rewrite S; auto.
  - rewrite Sel. auto.
  - unfold onActionClick. rewrite Sel.
    destruct (actionBtn_disabled (dom st)); [auto|].
    destruct (actionBtn_onclick (dom st)); rewrite ?Sel; auto.
  - unfold measurementOf in *. injection M as M1 M2 M3 M4.
    unfold resetMeasurement. cbn [reticle_visible hitTestSource scene nextId
                                   points measurementLine].
    rewrite M3, M4, M1, M2. simpl. auto.
  - unfold onUnitChange. rewrite measurementOf_calculateDistance.
    destruct (calculateDistance_dom
                {| scene := scene st; nextId := nextId st;
                   reticle_visible := reticle_visible st;
                   reticle_matrix := reticle_matrix st;
                   hitTestSource := hitTestSource st;
                   hitTestSourceRequested := hitTestSourceRequested st;
                   points := points st; measurementLine := measurementLine st;
                   measureUnit := value; dom := dom st |}) as [t ->].
    simpl. auto.
  - destruct (hitTestSourceRequested st); simpl; auto.
Qed.

(** X7: until the hit-test source arrives, whatever else happens, the
    reticle stays hidden, no point is captured, and the scene holds only
    what [init] put there. *)
Theorem nothing_before_hit_test_source (page : DOM) (evs : list Event) :
  Forall (fun ev => isSourceReady ev = false) evs ->
  reticle_visible (run (init page) evs) = false /\
  hitTestSource (run (init page) evs) = None /\
  points (run (init page) evs) = [] /\
  measurementLine (run (init page) evs) = None /\
  scene (run (init page) evs) = scene (init page).
Proof.
  intros H.
  assert (G : forall st,
             reticle_visible st = false /\ hitTestSource st = None /\
             measurementOf st = measurementOf (init page) ->
             reticle_visible (run st evs) = false /\
             hitTestSource (run st evs) = None /\
             measurementOf (run st evs) = measurementOf (init page)).
  { induction H as [|ev evs Hev _ IH]; intros st K; [exact K|].
    simpl. apply IH, idle_step; assumption. }
  destruct (G (init page)) as (V & S & M); [repeat split|].
  unfold measurementOf in M. injection M as M1 M2 M3 M4.
  repeat split; assumption.
Qed.

Lemma nothing_before_hit_test_source_witness :
  Forall (fun ev => isSourceReady ev = false)
    [StartClick; Samples.hitAt 0 1 0; Select; ActionClick; ResetClick] /\
  points (run (init Samples.page)
            [StartClick; Samples.hitAt 0 1 0; Select; ActionClick; ResetClick])
  = [].
Proof.
  assert (H : Forall (fun ev => isSourceReady ev = false)
                [StartClick; Samples.hitAt 0 1 0; Select; ActionClick; ResetClick])
    by (repeat constructor).
  split; [exact H|].
  destruct (nothing_before_hit_test_source Samples.page _ H) as (_ & _ & P & _).
  exact P.
Defined.

End CaptureOrder.

(* ================================================================== *)
(** ** The panel follows the measurement *)
(* ================================================================== *)

Section Panel.

Import Three App Derived.
Local Open Scope string_scope.

Ltac open_state st :=
  destruct st as [sc nid vis mat src req pts line unit
                  [txt dis opa onc ins l1 l2 dl intro ui]].

Ltac crunch :=
  cbn -[JSNumber.toFixed distanceTo displayValue formatCoord fromArray
        Three.add Three.remove setFromMatrixPosition].

Lemma panelInSync_init (page : DOM) :
  pristine page -> panelInSync (init page).
Proof.
  intros (T & D & O & P1 & P2 & DL).
  unfold panelInSync, expectedP1, expectedP2, expectedDistance,
    expectedButtonText, len. simpl.
  repeat split; try assumption; lia.
Qed.

Lemma panelInSync_step (st : State) (ev : Event) :
  panelInSync st -> panelInSync (step st ev).
Proof.
  open_state st.
  unfold panelInSync, expectedP1, expectedP2, expectedDistance,
    expectedButtonText, len.
  cbn [points dom measureUnit p1Label p2Label distLabel actionBtn_innerText
       actionBtn_disabled actionBtn_opacity instructionText].
  intros (L & H1 & H2 & H3 & H4 & H5 & H6 & H7).
  destruct pts as [|p0 [|p1 [|p2 r]]]; [| | |simpl in L; lia];
    cbn [List.length Nat.eqb] in *; subst;
    try (specialize (H7 eq_refl); subst);
    destruct ev as [|[[[|[h|] hs]]|]|s| | | |value|];
    destruct vis, req, onc, src; crunch;
    repeat split; try reflexivity; try lia; try discriminate.
Qed.

(** X8: on a page whose panel starts out blank, after any events the panel
    shows the state of the measurement: the coordinate labels are those of
    the captured points (["---"] for a missing one), the distance label is
    the distance of the two points in the current unit (["0.00"] with fewer),
    and the action button reads and is enabled according to the number of
    points, disabled and dimmed exactly when two are held. *)
Theorem panel_follows_measurement (page : DOM) (evs : list Event) :
  pristine page ->
  len (run (init page) evs) <= 2 /\
  p1Label (dom (run (init page) evs)) = expectedP1 (run (init page) evs) /\
  p2Label (dom (run (init page) evs)) = expectedP2 (run (init page) evs) /\
  distLabel (dom (run (init page) evs))
    = expectedDistance (run (init page) evs) /\
  actionBtn_innerText (dom (run (init page) evs))
    = expectedButtonText (run (init page) evs) /\
  actionBtn_disabled (dom (run (init page) evs))
    = Nat.eqb (len (run (init page) evs)) 2 /\
  actionBtn_opacity (dom (run (init page) evs))
    = (if Nat.eqb (len (run (init page) evs)) 2 then "0.5" else "1") /\
  (len (run (init page) evs) = 2 ->
   instructionText (dom (run (init page) evs)) = "Measurement Complete.").
Proof.
  intros P.
  assert (G : forall st, panelInSync st -> panelInSync (run st evs)).
  { induction evs as [|ev evs IH]; intros st K; [exact K|].
    simpl. apply IH, panelInSync_step, K. }
  exact (G (init page) (panelInSync_init page P)).
Qed.

Lemma sample_page_pristine : pristine Samples.page.
Proof. repeat split. Qed.

Lemma panel_follows_measurement_witness :
  pristine Samples.page /\
  distLabel (dom (run (init Samples.page) Samples.session))
    = expectedDistance (run (init Samples.page) Samples.session).
Proof.
  split; [exact sample_page_pristine|].
  destruct (panel_follows_measurement Samples.page Samples.session
              sample_page_pristine) as (_ & _ & _ & D & _).
  exact D.
Defined.

End Panel.

(* ================================================================== *)
(** ** Gestures, clicks and frames *)
(* ================================================================== *)

Section Interaction.

Import Three App Derived.
Local Open Scope string_scope.

Ltac open_state st :=
  destruct st as [sc nid vis mat src req pts line unit
                  [txt dis opa onc ins l1 l2 dl intro ui]].

Ltac crunch :=
  cbn -[JSNumber.toFixed distanceTo displayValue formatCoord fromArray
        Three.add Three.remove setFromMatrixPosition].

Lemma onSelect_twice (st : State) :
  points st <> [] -> onSelect (onSelect st) = onSelect st.
Proof.
  intros NE.
  destruct (reticle_visible st) eqn:V.
  2:{ assert (E : onSelect st = st) by (apply onSelect_ignored; left; exact V).
      rewrite !E. reflexivity. }
  destruct (Nat.ltb (len st) 2) eqn:L.
  - apply onSelect_ignored. right.
    rewrite len_onSelect, V, L. simpl. unfold len in *.
    destruct (points st); [congruence | simpl; lia].
  - apply Nat.ltb_ge in L.
    assert (E : onSelect st = st) by (apply onSelect_ignored; right; exact L).
    rewrite !E. reflexivity.
Qed.

(** X9: a click on the enabled action button does what one select gesture
    does, provided a point is already held or the [onclick] attribute has
    not been set yet; a click on the disabled button does nothing. *)
Theorem click_is_one_select (st : State) :
  (actionBtn_disabled (dom st) = true -> onActionClick st = st) /\
  (actionBtn_disabled (dom st) = false ->
   points st <> [] \/ actionBtn_onclick (dom st) = false ->
   onActionClick st = onSelect st).
Proof.
  unfold onActionClick. split.
  - intros ->. reflexivity.
  - intros -> [NE|NL].
    + destruct (actionBtn_onclick (dom st));
        [apply onSelect_twice, NE | reflexivity].
    + rewrite NL. reflexivity.
Qed.

Lemma click_is_one_select_witness :
  actionBtn_disabled (dom Samples.onePoint) = false /\
  (points Samples.onePoint <> [] \/ actionBtn_onclick (dom Samples.onePoint) = false) /\
  onActionClick Samples.onePoint = onSelect Samples.onePoint.
Proof.
  assert (D : actionBtn_disabled (dom Samples.onePoint) = false)
    by (vm_compute; reflexivity).
  assert (N : points Samples.onePoint <> []
              \/ actionBtn_onclick (dom Samples.onePoint) = false)
    by (left; vm_compute; discriminate).
  split; [exact D | split; [exact N|]].
  exact (proj2 (click_is_one_select Samples.onePoint) D N).
Defined.

Lemma distanceTo_same (v : Vector3) :
  finiteVector v = true -> distanceTo v v = 0%float.
Proof.
  unfold finiteVector. rewrite !andb_true_iff. intros [[Ax Ay] Az].
  unfold distanceTo, distanceToSquared.
  rewrite (float_sub_diag _ Ax), (float_sub_diag _ Ay), (float_sub_diag _ Az).
  vm_compute. reflexivity.
Qed.

(** X10: once the [onclick] attribute is set (it survives a reset), one
    click on the enabled action button with no point held and the reticle
    shown captures two points at once, both at the reticle: the measurement
    is complete, and for a reticle with finite coordinates the distance
    reads ["0.00"]. *)
Theorem linked_click_captures_twice (st : State) :
  actionBtn_disabled (dom st) = false ->
  actionBtn_onclick (dom st) = true ->
  reticle_visible st = true ->
  points st = [] ->
  map vec (points (onActionClick st)) = [reticlePosition st; reticlePosition st] /\
  actionBtn_disabled (dom (onActionClick st)) = true /\
  instructionText (dom (onActionClick st)) = "Measurement Complete." /\
  (finiteVector (reticlePosition st) = true ->
   distLabel (dom (onActionClick st)) = "0.00").
Proof.
  open_state st. crunch. intros -> -> -> ->.
  unfold onActionClick. crunch. unfold reticlePosition. crunch.
  repeat split.
  intros F.
  match goal with
  | |- context [distanceTo ?a ?b] =>
      change (distanceTo a b)
        with (distanceTo (setFromMatrixPosition mat) (setFromMatrixPosition mat))
  end.
  rewrite (distanceTo_same _ F). apply displayValue_zero.
Qed.

Lemma linked_click_captures_twice_witness :
  actionBtn_disabled
    (dom (run Samples.complete [ResetClick; Samples.hitAt 2 0 0])) = false /\
  actionBtn_onclick
    (dom (run Samples.complete [ResetClick; Samples.hitAt 2 0 0])) = true /\
  reticle_visible (run Samples.complete [ResetClick; Samples.hitAt 2 0 0]) = true /\
  points (run Samples.complete [ResetClick; Samples.hitAt 2 0 0]) = [] /\
  len (run Samples.complete [ResetClick; Samples.hitAt 2 0 0; ActionClick]) = 2.
Proof.
  assert (A : actionBtn_disabled
                (dom (run Samples.complete [ResetClick; Samples.hitAt 2 0 0])) = false)
    by (vm_compute; reflexivity).
  assert (B : actionBtn_onclick
                (dom (run Samples.complete [ResetClick; Samples.hitAt 2 0 0])) = true)
    by (vm_compute; reflexivity).
  assert (C : reticle_visible
                (run Samples.complete [ResetClick; Samples.hitAt 2 0 0]) = true)
    by (vm_compute; reflexivity).
  assert (D : points (run Samples.complete [ResetClick; Samples.hitAt 2 0 0]) = [])
    by (vm_compute; reflexivity).
  repeat (split; [assumption|]).
  destruct (linked_click_captures_twice _ A B C D) as (P & _).
  change (run Samples.complete [ResetClick; Samples.hitAt 2 0 0; ActionClick])
    with (onActionClick (run Samples.complete [ResetClick; Samples.hitAt 2 0 0])).
  unfold len. rewrite <- (length_map vec), P. reflexivity.
Defined.

(** X11: processing the same frame a second time changes nothing. *)
Theorem render_idempotent (frame : option XRFrame) (st : State) :
  render frame (render frame st) = render frame st.
Proof.
  open_state st.
  destruct frame as [[[|[h|] hs]]|]; [| | |reflexivity];
    destruct req, src, pts as [|p0 [|p1 r]]; reflexivity.
Qed.

(** X12: of several unit changes in a row only the last one counts: the
    state is the one a single change to the last unit gives. *)
Theorem last_unit_change_wins (u1 u2 : string) (st : State) :
  onUnitChange u2 (onUnitChange u1 st) = onUnitChange u2 st.
Proof.
  open_state st. destruct pts as [|p0 [|p1 r]]; reflexivity.
Qed.

Lemma render_keeps (frame : option XRFrame) (st : State) :
  points (render frame st) = points st /\
  measureUnit (render frame st) = measureUnit st /\
  hitTestSource (render frame st) = hitTestSource st /\
  p1Label (dom (render frame st)) = p1Label (dom st) /\
  p2Label (dom (render frame st)) = p2Label (dom st) /\
  distLabel (dom (render frame st)) = distLabel (dom st).
Proof.
  unfold render, renderCall. destruct frame as [fr|]; [|repeat split].
  destruct (hitTestSourceRequested st); simpl;
    destruct (hitTestSource st) eqn:Hs; simpl; try (repeat split; assumption);
    destruct (hitTestResults fr) as [|[m|] rest]; simpl;
    destruct (Nat.ltb (List.length (points st)) 2); simpl;
    try (repeat split; assumption);
    destruct (Nat.eqb (List.length (points st)) 0); repeat split; assumption.
Qed.

(** A frame with a hit, processed with a source and fewer than two points,
    puts the reticle on the first hit. *)
Lemma render_hit (st : State) (source : XRHitTestSource)
    (hit : list float) (rest : list (option (list float))) :
  hitTestSource st = Some source -> len st < 2 ->
  reticle_visible (render (Some {| hitTestResults := Some hit :: rest |}) st)
    = true /\
  reticlePosition (render (Some {| hitTestResults := Some hit :: rest |}) st)
    = setFromMatrixPosition (fromArray hit).
Proof.
  intros S L.
  destruct (render_reticle st {| hitTestResults := Some hit :: rest |} source S)
    as [V M].
  apply Nat.ltb_lt in L. cbn [hitTestResults] in V, M. rewrite L in V, M.
  unfold reticlePosition. rewrite M. split; [exact V | reflexivity].
Qed.

Lemma first_capture (st : State) :
  reticle_visible st = true -> points st = [] ->
  points (onSelect st) = [capturedPoint st] /\
  p1Label (dom (onSelect st)) = formatCoord (reticlePosition st) /\
  hitTestSource (onSelect st) = hitTestSource st /\
  measureUnit (onSelect st) = measureUnit st.
Proof.
  intros V P.
  rewrite onSelect_withCapture by (unfold len; rewrite ?P; simpl; auto).
  unfold updateUIState. cbn [points withCapture]. rewrite P. cbn [app].
  cbn [points with_dom withCapture]. rewrite P.
  repeat split.
Qed.

Lemma second_capture (st : State) (p0 : Point) :
  reticle_visible st = true -> points st = [p0] ->
  points (onSelect st) = [p0; capturedPoint st] /\
  distLabel (dom (onSelect st))
    = JSNumber.toFixed
        (displayValue (measureUnit st) (distanceTo (vec p0) (reticlePosition st)))
        2 /\
  p1Label (dom (onSelect st)) = p1Label (dom st) /\
  p2Label (dom (onSelect st)) = formatCoord (reticlePosition st) /\
  actionBtn_disabled (dom (onSelect st)) = true /\
  measurementLine (onSelect st)
    = Some {| id := S (nextId st);
              kind := Line (vec p0) (reticlePosition st);
              position := origin |}.
Proof.
  intros V P.
  rewrite onSelect_withCapture by (unfold len; rewrite ?P; simpl; auto).
  unfold updateUIState. cbn [points withCapture]. rewrite P. cbn [app].
  unfold calculateDistance, drawLine.
  cbn [points with_dom withCapture]. rewrite P. cbn [app].
  cbn [points dom measureUnit measurementLine nextId vec capturedPoint
       set_distLabel distLabel p1Label p2Label actionBtn_disabled].
  repeat split.
Qed.

(** X13: a whole measurement.  With a hit-test source held and no point
    captured, a frame with a hit, a select gesture, a second frame with a hit
    and a second select gesture leave two points, at the translations of the
    two first hits, the line between them, the panel showing both
    coordinates and their distance in the current unit, and the action
    button disabled. *)
Theorem two_captures_measure (st : State) (source : XRHitTestSource)
    (hitA hitB : list float) (restA restB : list (option (list float))) :
  hitTestSource st = Some source ->
  points st = [] ->
  map vec (points (run st [frameOf (Some hitA :: restA); Select;
                           frameOf (Some hitB :: restB); Select]))
    = [setFromMatrixPosition (fromArray hitA);
       setFromMatrixPosition (fromArray hitB)] /\
  distLabel (dom (run st [frameOf (Some hitA :: restA); Select;
                          frameOf (Some hitB :: restB); Select]))
    = JSNumber.toFixed
        (displayValue (measureUnit st)
           (distanceTo (setFromMatrixPosition (fromArray hitA))
                       (setFromMatrixPosition (fromArray hitB)))) 2 /\
  p1Label (dom (run st [frameOf (Some hitA :: restA); Select;
                        frameOf (Some hitB :: restB); Select]))
    = formatCoord (setFromMatrixPosition (fromArray hitA)) /\
  p2Label (dom (run st [frameOf (Some hitA :: restA); Select;
                        frameOf (Some hitB :: restB); Select]))
    = formatCoord (setFromMatrixPosition (fromArray hitB)) /\
  actionBtn_disabled (dom (run st [frameOf (Some hitA :: restA); Select;
                                   frameOf (Some hitB :: restB); Select])) = true /\
  (exists l : Object3D,
     measurementLine (run st [frameOf (Some hitA :: restA); Select;
                              frameOf (Some hitB :: restB); Select]) = Some l /\
     kind l = Line (setFromMatrixPosition (fromArray hitA))
                   (setFromMatrixPosition (fromArray hitB))).
Proof.
  intros S P.
  change (run st [frameOf (Some hitA :: restA); Select;
                  frameOf (Some hitB :: restB); Select])
    with (onSelect
            (render (Some {| hitTestResults := Some hitB :: restB |})
               (onSelect
                  (render (Some {| hitTestResults := Some hitA :: restA |}) st)))).
  set (fA := Some {| hitTestResults := Some hitA :: restA |}).
  set (fB := Some {| hitTestResults := Some hitB :: restB |}).
  (* the first frame *)
  destruct (render_keeps fA st) as (P1 & U1 & S1 & _).
  destruct (render_hit st source hitA restA S) as (V1 & R1);
    [unfold len; rewrite P; simpl; lia|].
  fold fA in V1, R1. rewrite P in P1. rewrite S in S1.
  set (st1 := render fA st) in *.
  (* the first capture *)
  destruct (first_capture st1 V1 P1) as (P2 & L2 & S2 & U2).
  rewrite S1 in S2. rewrite R1 in L2.
  set (st2 := onSelect st1) in *.
  (* the second frame *)
  destruct (render_keeps fB st2) as (P3 & U3 & S3 & L3 & _).
  destruct (render_hit st2 source hitB restB S2) as (V3 & R3);
    [unfold len; rewrite P2; simpl; lia|].
  fold fB in V3, R3. rewrite P2 in P3.
  set (st3 := render fB st2) in *.
  (* the second capture *)
  destruct (second_capture st3 (capturedPoint st1) V3 P3)
    as (P4 & D4 & L4 & M4 & B4 & N4).
  rewrite R3 in D4, M4, N4. rewrite U3, U2, U1 in D4.
  rewrite L3, L2 in L4.
  assert (VA : vec (capturedPoint st1) = setFromMatrixPosition (fromArray hitA))
    by exact R1.
  rewrite VA in D4, N4.
  repeat split; try assumption.
  - rewrite P4. cbn [map]. rewrite VA.
    change (vec (capturedPoint st3)) with (reticlePosition st3).
    rewrite R3. reflexivity.
  - eexists. split; [exact N4 | reflexivity].
Qed.

Lemma two_captures_measure_witness :
  hitTestSource Samples.tracking = Some HitTestSource /\
  points Samples.tracking = [] /\
  distLabel (dom (run Samples.tracking
                    [frameOf [Some (Samples.poseAt 0 0 0)]; Select;
                     frameOf [Some (Samples.poseAt 0 3 4)]; Select])) = "5.00".
Proof.
  assert (S : hitTestSource Samples.tracking = Some HitTestSource)
    by (vm_compute; reflexivity).
  assert (P : points Samples.tracking = []) by (vm_compute; reflexivity).
  split; [exact S | split; [exact P|]].
  destruct (two_captures_measure Samples.tracking HitTestSource
              (Samples.poseAt 0 0 0) (Samples.poseAt 0 3 4) [] [] S P)
    as (_ & D & _).
  rewrite D. vm_compute. reflexivity.
Defined.

End Interaction.

(* ================================================================== *)
(** ** Capture does not look at the session *)
(* ================================================================== *)

Section SessionAndCapture.

Import Three App Derived.

(** X14: a select gesture and the end of the session commute: [onSelect]
    reads neither the hit-test source nor the request flag, so after the
    session has ended a reticle that was left visible still captures, exactly
    as it would have before. *)
Theorem select_ignores_session_end (st : State) :
  onSelect (onSessionEnd st) = onSessionEnd (onSelect st) /\
  points (onSelect (onSessionEnd st)) = points (onSelect st).
Proof.
  assert (E : onSelect (onSessionEnd st) = onSessionEnd (onSelect st)).
  { destruct st as [sc nid vis mat src req pts line unit
                    [txt dis opa onc ins l1 l2 dl intro ui]].
    destruct vis, pts as [|p0 [|p1 r]]; reflexivity. }
  split; [exact E|]. rewrite E. reflexivity.
Qed.

End SessionAndCapture.
